(** * Cirrus Uncinus: a shallow embedding of [main.py]

    The development follows the layout of the bot's source:
    - [Py]: the fragment of the Python runtime the bot relies on
      (exceptions, binary64 floats, [round], [int], [str], [math.log],
      [math.exp]);
    - [Meteo]: the meteorological calculations and unit conversions;
    - [Store]: the settings dictionary and its JSON persistence;
    - [Bot]: the caches, the slash commands that write settings, the
      daily report and the scheduler sweep, over an explicit world state;
    - the theorems about them. *)

From Stdlib Require Import ZArith Lia Floats Ascii String DecimalString DecimalZ.
From stdpp Require Import gmap strings list fin_maps.

Set Warnings "-inexact-float".
Local Open Scope Z_scope.

(* ===================================================================== *)
(** * The Python runtime fragment *)
(* ===================================================================== *)

Module Py.

(** Exceptions the bot's code can meet.  Every handler in [main.py] is
    [except Exception], so the handlers never inspect the constructor,
    apart from [discord.Forbidden] in [send_daily_report]. *)
Inductive exn : Type :=
  | ZeroDivisionError
  | ValueError
  | OverflowError
  | KeyError
  | IndexError
  | TypeError
  | AttributeError
  | OSError
  | JSONDecodeError
  | UnknownTimeZoneError
  | Forbidden
  | HTTPException.

(** The outcome of evaluating an expression: a value or a raised exception. *)
Inductive result (A : Type) : Type :=
  | Ret (a : A)
  | Raise (e : exn).
Arguments Ret {A} a.
Arguments Raise {A} e.

Definition bind {A B : Type} (c : result A) (k : A -> result B) : result B :=
  match c with
  | Ret a => k a
  | Raise e => Raise e
  end.

(** [try: c  except Exception: h] *)
Definition try_except {A : Type} (c : result A) (h : exn -> result A) : result A :=
  match c with
  | Ret a => Ret a
  | Raise e => h e
  end.

Definition returns {A : Type} (c : result A) : Prop := exists a, c = Ret a.

Declare Scope py_scope.
Delimit Scope py_scope with py.
Notation "x <- c ;; k" := (bind c (fun x => k))
  (at level 100, c at next level, right associativity) : py_scope.

(** ** Floats

    Python's [float] is IEEE 754 binary64, the kernel's [PrimFloat.float].
    [+], [-], [*] never raise on floats; [/] raises on a zero divisor. *)

Definition py_truediv (x y : float) : result float :=
  if (y =? 0)%float then Raise ZeroDivisionError else Ret (x / y)%float.

(** [float(n)] for an integer small enough not to overflow. *)
Definition float_of_Z (n : Z) : float :=
  SF2Prim (binary_normalize prec emax n 0 false).

(** Nearest integer to [num / den], ties to even ([0 <= num], [0 < den]). *)
Definition div_half_even (num den : Z) : Z :=
  let q := num / den in
  let r := num mod den in
  match 2 * r ?= den with
  | Lt => q
  | Gt => q + 1
  | Eq => if Z.even q then q else q + 1
  end.

Definition signed (s : bool) (n : Z) : Z := if s then - n else n.

(** [round(x)]: the nearest integer, ties to even; [ValueError] on NaN and
    [OverflowError] on an infinity. *)
Definition py_round (x : float) : result Z :=
  match Prim2SF x with
  | S754_nan => Raise ValueError
  | S754_infinity _ => Raise OverflowError
  | S754_zero _ => Ret 0
  | S754_finite s m e =>
      Ret (signed s (if 0 <=? e then Z.pos m * 2 ^ e
                     else div_half_even (Z.pos m) (2 ^ (- e))))
  end.

(** The binary64 value nearest to [(-1)^s * k / d], for [0 <= k], [0 < d]. *)
Definition nearest_quotient (s : bool) (k d : Z) : float :=
  match k with
  | Z0 => SF2Prim (S754_zero s)
  | _ =>
      let '(q, e, l) := SFdiv_core_binary prec emax k 0 d 0 in
      SF2Prim (binary_round_aux prec emax s q e l)
  end.

(** [round(x, ndigits)] for [0 <= ndigits]: the decimal with [ndigits]
    places nearest to the exact value of [x] (ties to even), converted back
    to the nearest float.  NaN, infinities and zeros are returned as they
    are. *)
Definition py_round_n (x : float) (ndigits : Z) : float :=
  match Prim2SF x with
  | S754_finite s m e =>
      if 0 <=? e then x
      else nearest_quotient s
             (div_half_even (Z.pos m * 10 ^ ndigits) (2 ^ (- e)))
             (10 ^ ndigits)
  | _ => x
  end.

(** [int(x)]: truncation towards zero; raises on NaN and on infinities. *)
Definition py_int (x : float) : result Z :=
  match Prim2SF x with
  | S754_nan => Raise ValueError
  | S754_infinity _ => Raise OverflowError
  | S754_zero _ => Ret 0
  | S754_finite s m e =>
      Ret (signed s (if 0 <=? e then Z.pos m * 2 ^ e
                     else Z.pos m / 2 ^ (- e)))
  end.

(** ** [math.log] and [math.exp]

    The C library's [log] and [exp] are not specified bit for bit; the
    development is parametric in them.  What [math.log] and [math.exp] add
    to them, the domain and range checks of CPython's [mathmodule.c], is
    modelled here. *)
Class Libm : Type := {
  c_log : float -> float;
  c_exp : float -> float
}.

Definition math_log `{Libm} (x : float) : result float :=
  if is_nan x then Ret x
  else if (0 <? x)%float then
    if is_infinity x then Ret x
    else
      let r := c_log x in
      if is_nan r || is_infinity r then Raise ValueError else Ret r
  else Raise ValueError.

Definition math_exp `{Libm} (x : float) : result float :=
  let r := c_exp x in
  if is_nan r && negb (is_nan x) then Raise ValueError
  else if is_infinity r && is_finite x then Raise OverflowError
  else Ret r.

(** ** [str] and [int] on integers and strings *)

(** [str(n)]: decimal digits, a leading ["-"] for negatives. *)
Definition py_str (n : Z) : string :=
  NilZero.string_of_int (Z.to_int n).

Definition is_space (c : ascii) : bool :=
  let n := nat_of_ascii c in
  ((9 <=? n)%nat && (n <=? 13)%nat) || (n =? 32)%nat || ((28 <=? n)%nat && (n <=? 31)%nat).

Fixpoint lstrip (s : string) : string :=
  match s with
  | String c r => if is_space c then lstrip r else s
  | EmptyString => EmptyString
  end.

Fixpoint rstrip (s : string) : string :=
  match s with
  | String c r =>
      match rstrip r with
      | EmptyString => if is_space c then EmptyString else String c EmptyString
      | r' => String c r'
      end
  | EmptyString => EmptyString
  end.

(** [s.strip()] *)
Definition strip (s : string) : string := rstrip (lstrip s).

Definition is_digit (c : ascii) : bool :=
  let n := nat_of_ascii c in (48 <=? n)%nat && (n <=? 57)%nat.

(** Digits of an integer literal: single underscores are allowed between
    digits and dropped. [prev] tells whether the previous character was a
    digit. *)
Fixpoint int_digits (prev : bool) (s : string) : option string :=
  match s with
  | EmptyString => if prev then Some EmptyString else None
  | String c r =>
      if is_digit c then String c <$> int_digits true r
      else if Ascii.eqb c "_" then
        if prev then
          match r with
          | EmptyString => None
          | _ => int_digits false r
          end
        else None
      else None
  end.

Definition int_unsigned (s : string) : result Z :=
  match int_digits false s with
  | Some ds =>
      match NilEmpty.uint_of_string ds with
      | Some d => Ret (Z.of_uint d)
      | None => Raise ValueError
      end
  | None => Raise ValueError
  end.

(** [int(s)] on a string of ASCII characters: surrounding white space is
    dropped, then an optional sign, then digits. *)
Definition py_int_of_string (s : string) : result Z :=
  match strip s with
  | String "-" r => bind (int_unsigned r) (fun n => Ret (- n))
  | String "+" r => int_unsigned r
  | r => int_unsigned r
  end.

(** [s.lower()] on ASCII. *)
Definition lower_ascii (c : ascii) : ascii :=
  let n := nat_of_ascii c in
  if (65 <=? n)%nat && (n <=? 90)%nat then ascii_of_nat (n + 32) else c.

Fixpoint lower (s : string) : string :=
  match s with
  | EmptyString => EmptyString
  | String c r => String (lower_ascii c) (lower r)
  end.

End Py.

(* ===================================================================== *)
(** * Meteorological calculations *)
(* ===================================================================== *)

Module Meteo.
Import Py.
Local Open Scope py_scope.

(** Scientific constants. *)
Definition VAPOR_PRESSURE_BASE : float := 6.112%float.
Definition VAPOR_PRESSURE_COEFF : float := 17.67%float.
Definition VAPOR_PRESSURE_TEMP_BASE : float := 243.5%float.
Definition GAS_CONSTANT_DRY_AIR : float := 287.05%float.
Definition STANDARD_PRESSURE : float := 1013.25%float.
Definition KELVIN_OFFSET : float := 273.15%float.

Section Calculations.
Context `{Libm}.

(** The [alpha] of the Magnus-Tetens formula, as [calculate_dewpoint]
    evaluates it: the quotient first, then the logarithm. *)
Definition dewpoint_alpha (temp_c humidity : float) : result float :=
  let a := VAPOR_PRESSURE_COEFF in
  let b := VAPOR_PRESSURE_TEMP_BASE in
  q <- py_truediv (a * temp_c)%float (b + temp_c)%float ;;
  h <- py_truediv humidity 100%float ;;
  l <- math_log h ;;
  Ret (q + l)%float.

(** The body of the [try] block of [calculate_dewpoint]. *)
Definition dewpoint_body (temp_c humidity : float) : result float :=
  let a := VAPOR_PRESSURE_COEFF in
  let b := VAPOR_PRESSURE_TEMP_BASE in
  alpha <- dewpoint_alpha temp_c humidity ;;
  dewpoint <- py_truediv (b * alpha)%float (a - alpha)%float ;;
  Ret (py_round_n dewpoint 2).

Definition calculate_dewpoint (temp_c humidity : float) : result float :=
  try_except (dewpoint_body temp_c humidity) (fun _ => Ret 0%float).

(** [temp_f = (temp_c * 9/5) + 32] *)
Definition fahrenheit_of (temp_c : float) : result float :=
  q <- py_truediv (temp_c * 9)%float 5%float ;;
  Ret (q + 32)%float.

(** The regression of [calculate_heat_index], statement by statement. *)
Definition heat_index_regression (temp_f humidity : float) : float :=
  let hi := (-42.379 + 2.04901523 * temp_f + 10.14333127 * humidity)%float in
  let hi := (hi - 0.22475541 * temp_f * humidity)%float in
  let hi := (hi - 0.00683783 * temp_f * temp_f)%float in
  let hi := (hi - 0.05481717 * humidity * humidity)%float in
  let hi := (hi + 0.00122874 * temp_f * temp_f * humidity)%float in
  let hi := (hi + 0.00085282 * temp_f * humidity * humidity)%float in
  let hi := (hi - 0.00000199 * temp_f * temp_f * humidity * humidity)%float in
  hi.

Definition heat_index_body (temp_c humidity : float) : result float :=
  temp_f <- fahrenheit_of temp_c ;;
  if (temp_f <? 80)%float then Ret temp_c
  else
    let hi := heat_index_regression temp_f humidity in
    hi_c <- py_truediv ((hi - 32) * 5)%float 9%float ;;
    Ret (py_round_n hi_c 2).

Definition calculate_heat_index (temp_c humidity : float) : result float :=
  try_except (heat_index_body temp_c humidity) (fun _ => Ret temp_c).

Definition air_density_body (temp_c pressure_hpa humidity : float) : result float :=
  let temp_k := (temp_c + KELVIN_OFFSET)%float in
  q <- py_truediv (VAPOR_PRESSURE_COEFF * temp_c)%float
                  (temp_c + VAPOR_PRESSURE_TEMP_BASE)%float ;;
  x <- math_exp q ;;
  let es := (VAPOR_PRESSURE_BASE * x)%float in
  h <- py_truediv humidity 100%float ;;
  let e := (h * es)%float in
  let pd := (pressure_hpa * 100 - e * 100)%float in
  density <- py_truediv pd (GAS_CONSTANT_DRY_AIR * temp_k)%float ;;
  Ret (py_round_n density 4).

Definition calculate_air_density (temp_c pressure_hpa humidity : float) : result float :=
  try_except (air_density_body temp_c pressure_hpa humidity)
             (fun _ => Ret 1.225%float).

End Calculations.

(** Okta table of [classify_clouds_scientific]. *)
Definition classifications (oktas : Z) : option (string * string * Z) :=
  match oktas with
  | 0 => Some ("SKC", "Sky Clear - No cloud coverage detected", 0)
  | 1 => Some ("FEW", "Few clouds - Cumulus humilis or fractus", 1)
  | 2 => Some ("FEW", "Few clouds - Isolated cumulus development", 2)
  | 3 => Some ("SCT", "Scattered - Cumulus mediocris formation", 3)
  | 4 => Some ("SCT", "Scattered - Multiple cumulus or stratocumulus", 4)
  | 5 => Some ("BKN", "Broken - Extensive stratocumulus or altocumulus", 5)
  | 6 => Some ("BKN", "Broken - Altostratus or nimbostratus forming", 6)
  | 7 => Some ("BKN", "Broken - Pre-overcast conditions", 7)
  | 8 => Some ("OVC", "Overcast - Complete cloud coverage (nimbostratus/stratus)", 8)
  | _ => None
  end%string.

Definition classify_clouds_scientific (cloud_pct : float) : result (string * string * Z) :=
  q <- py_truediv cloud_pct 12.5%float ;;
  oktas <- py_round q ;;
  Ret (default ("OVC", "Overcast - Complete cloud coverage (nimbostratus/stratus)", 8)%string
               (classifications oktas)).

Definition cloud_base_height_body (temp_c dewpoint : float) : result Z :=
  let spread := (temp_c - dewpoint)%float in
  let height := (125 * spread)%float in
  py_int height.

Definition calculate_cloud_base_height (temp_c dewpoint : float) : result Z :=
  try_except (cloud_base_height_body temp_c dewpoint) (fun _ => Ret 0).

Definition get_visibility_category (vis_m : Z) : string :=
  if 10000 <=? vis_m then "Excellent (>10km)"
  else if 5000 <=? vis_m then "Good (5-10km)"
  else if 2000 <=? vis_m then "Moderate (2-5km)"
  else if 1000 <=? vis_m then "Poor (1-2km)"
  else ("Very Poor (" ++ py_str vis_m ++ "m)")%string.

Definition convert_temperature (temp_c : float) (unit : string) : result (float * string) :=
  if String.eqb unit "fahrenheit" then
    q <- py_truediv (temp_c * 9)%float 5%float ;;
    Ret (py_round_n (q + 32)%float 1, "°F"%string)
  else if String.eqb unit "kelvin" then
    Ret (py_round_n (temp_c + KELVIN_OFFSET)%float 1, "K"%string)
  else (* celsius *)
    Ret (py_round_n temp_c 1, "°C"%string).

Definition directions : list string :=
  ["N"; "NNE"; "NE"; "ENE"; "E"; "ESE"; "SE"; "SSE";
   "S"; "SSW"; "SW"; "WSW"; "W"; "WNW"; "NW"; "NNW"]%string.

Definition cardinal_direction (degrees : float) : result string :=
  q <- py_truediv degrees 22.5%float ;;
  r <- py_round q ;;
  let idx := r mod 16 in
  match directions !! Z.to_nat idx with
  | Some d => Ret d
  | None => Raise IndexError
  end.

End Meteo.

(* ===================================================================== *)
(** * The settings dictionary and its persistence *)
(* ===================================================================== *)

Module Store.
Import Py.
Local Open Scope py_scope.

(** Values stored in a station record: what [json] reads and writes for
    the fields [setlocation] and [settings] store. *)
Inductive pyval : Type :=
  | VStr (s : string)
  | VInt (n : Z)
  | VFloat (x : float).

(** A station record is a Python [dict] with string keys:
    [city], [country], [lat], [lon], [tz], [temp_unit], [report_hour]. *)
Abbreviation record := (gmap string pyval).

(** [user_settings: dict[int, dict]] *)
Abbreviation settings_map := (gmap Z (gmap string pyval)).

(** What [DB_FILE] holds: nothing, text that [json.load] rejects (or that
    is not an object), or a JSON object of station records. *)
Inductive file : Type :=
  | NoFile
  | BadFile
  | JsonFile (data : gmap string (gmap string pyval)).

(** [settings[key]] *)
Definition getitem (settings : record) (key : string) : result pyval :=
  match settings !! key with
  | Some v => Ret v
  | None => Raise KeyError
  end.

(** [settings.get(key, dflt)] *)
Definition get_default (settings : record) (key : string) (dflt : pyval) : pyval :=
  default dflt (settings !! key).

(** [{str(k): v for k, v in user_settings.items()}], one item after the
    other; a later item with the same key replaces an earlier one. *)
Definition str_keys (items : list (Z * record)) : gmap string record :=
  foldl (fun acc '(k, v) => <[py_str k := v]> acc) ∅ items.

(** [{int(k): v for k, v in data.items()}]: [int] may raise. *)
Fixpoint int_keys (items : list (string * record)) (acc : settings_map)
  : result settings_map :=
  match items with
  | [] => Ret acc
  | (k, v) :: rest =>
      n <- py_int_of_string k ;;
      int_keys rest (<[n := v]> acc)
  end.

(** The [data] dictionary that [save_user_settings] hands to [json.dump]. *)
Definition dump_settings (user_settings : settings_map) : gmap string record :=
  str_keys (map_to_list user_settings).

(** The [try] block of [load_user_settings]. *)
Definition load_body (f : file) : result settings_map :=
  match f with
  | NoFile => Ret ∅
  | BadFile => Raise JSONDecodeError
  | JsonFile data => int_keys (map_to_list data) ∅
  end.

(** What [load_user_settings] assigns to the global [user_settings]. *)
Definition loaded_settings (f : file) : settings_map :=
  match load_body f with
  | Ret m => m
  | Raise _ => ∅
  end.

End Store.

(* ===================================================================== *)
(** * The bot: caches, commands, daily report, scheduler *)
(* ===================================================================== *)

Module Bot.
Import Py Meteo Store.

(** The [result] dictionary that [get_weather] builds from the API's
    answer. *)
Record weather : Type := {
  temp : float;
  feels_like : float;
  pressure : float;
  humidity : float;
  clouds : float;
  wind_speed : float;
  wind_deg : float;
  visibility : Z;
  description : string;
  condition_id : Z;
  lat : float;
  lon : float;
  city_name : string;
  country : string
}.

(** [(url, title, explanation)] *)
Definition apod : Type := string * string * string.

(** The choices the [settings] command offers for [temperature_unit]. *)
Inductive unit_choice : Type := Celsius | Fahrenheit | Kelvin.

Definition choice_value (c : unit_choice) : string :=
  match c with
  | Celsius => "celsius"
  | Fahrenheit => "fahrenheit"
  | Kelvin => "kelvin"
  end.

(** The data of the daily report's embed. *)
Record report : Type := {
  r_city : string;
  r_country : pyval;
  r_local_time : option Z;
  r_temp : float;
  r_feels : float;
  r_dew : float;
  r_hi : float;
  r_unit_symbol : string;
  r_pressure : float;
  r_humidity : float;
  r_air_density : float;
  r_clouds : float;
  r_oktas : Z;
  r_cloud_class : string;
  r_cloud_desc : string;
  r_cloud_base : Z;
  r_wind_speed : float;
  r_wind_dir : string;
  r_wind_deg : float;
  r_description : string;
  r_lat : float;
  r_lon : float;
  r_report_hour : Z
}.

(** The data of the embed of [atmosphere]. *)
Record analysis : Type := {
  a_city : string;
  a_country : pyval;
  a_local_time : option Z;
  a_temp : float;
  a_feels : float;
  a_hi : float;
  a_dew : float;
  a_unit_symbol : string;
  a_pressure : float;
  a_humidity : float;
  a_air_density : float;
  a_clouds : float;
  a_oktas : Z;
  a_cloud_class : string;
  a_cloud_desc : string;
  a_cloud_base : Z;
  a_wind_speed : float;
  a_wind_deg : float;
  a_wind_dir : string;
  a_visibility : string;
  a_description : string;
  a_lat : float;
  a_lon : float
}.

Inductive change : Type :=
  | ChangedUnit (c : unit_choice)
  | ChangedHour (h : Z).

(** What the bot says; the rendering of embeds is not modelled, a message
    carries the data that is rendered. *)
Inductive message : Type :=
  | InvalidCityName
  | UnableToResolve (city : string)
  | SetLocationError
  | StationConfigured (city country : string) (lat lon : float)
                      (tz : string) (local_time : option Z)
  | ConfigureLocationFirst
  | ReportHourOutOfRange
  | CurrentSettings (temp_unit : string) (rep_hour : Z)
  | SettingsUpdated (changes : list change)
  | SettingsError
  | DailyReport (r : report)
  | NasaImage (url title explanation : string)
  | NoStationConfigured
  | DataAcquisitionFailed
  | AtmosphericAnalysis (a : analysis)
  | AtmosphereError
  | NasaApiError
  | NasaCommandError
  | NoStationInitialized
  | StationStatus (city country : pyval) (lat lon : float) (tz : pyval)
                  (local_time : option Z) (temp_unit : string) (report_hour : Z)
  | StationError.

(** Calls to the collaborators outside the process, in the order they are
    made.  Writing to the log is not modelled. *)
Inductive event : Type :=
  | EvHttpWeather (city : string)
  | EvHttpNasa
  | EvFetchUser (user_id : Z)
  | EvSend (user_id : Z) (msg : message)
  | EvDefer
  | EvRespond (msg : message)
  | EvWriteDb (data : gmap string record).

(** Process state: the three module-level globals, the database file and
    the calls made so far. *)
Record world : Type := {
  user_settings : settings_map;
  weather_cache : gmap string (weather * Z);
  nasa_cache : option (apod * Z);
  db_file : file;
  trace : list event
}.

Definition set_user_settings (m : settings_map) (w : world) : world :=
  {| user_settings := m; weather_cache := weather_cache w;
     nasa_cache := nasa_cache w; db_file := db_file w; trace := trace w |}.

Definition set_weather_cache (c : gmap string (weather * Z)) (w : world) : world :=
  {| user_settings := user_settings w; weather_cache := c;
     nasa_cache := nasa_cache w; db_file := db_file w; trace := trace w |}.

Definition set_nasa_cache (c : option (apod * Z)) (w : world) : world :=
  {| user_settings := user_settings w; weather_cache := weather_cache w;
     nasa_cache := c; db_file := db_file w; trace := trace w |}.

Definition set_db_file (f : file) (w : world) : world :=
  {| user_settings := user_settings w; weather_cache := weather_cache w;
     nasa_cache := nasa_cache w; db_file := f; trace := trace w |}.

Definition add_event (ev : event) (w : world) : world :=
  {| user_settings := user_settings w; weather_cache := weather_cache w;
     nasa_cache := nasa_cache w; db_file := db_file w;
     trace := trace w ++ [ev] |}.

(** The collaborators.  Each answer may depend on the calls made before,
    so that a call that fails once can succeed when it is repeated.
    - [http_weather]: the request of [get_weather] and the construction of
      [result] from the answer; [None] when anything in that [try] block
      raises.
    - [http_nasa]: the same for [get_nasa_image].
    - [fetch_user], [deliver], [respond]: [bot.fetch_user], [user.send]
      and the interaction's replies; [Some e] when the call raises [e].
    - [timezone_at]: [TimezoneFinder().timezone_at].
    - [write_ok]: whether opening and writing [DB_FILE] succeeds. *)
Record env : Type := {
  http_weather : list event -> string -> option weather;
  http_nasa : list event -> option apod;
  fetch_user : list event -> Z -> option exn;
  deliver : list event -> Z -> message -> option exn;
  respond : list event -> message -> option exn;
  timezone_at : float -> float -> result (option string);
  write_ok : list event -> bool
}.

(** The clock as one command or one sweep reads it.
    - [now]: [datetime.now()], in microseconds;
    - [zone_now tz]: [datetime.now(pytz.timezone(tz))] as seconds of local
      wall-clock time, or the exception [pytz.timezone] raises. *)
Record clock : Type := {
  now : Z;
  zone_now : string -> result Z
}.

(** [local_time.hour], [local_time.minute] and the local calendar day. *)
Definition hour_of (local_seconds : Z) : Z := (local_seconds / 3600) mod 24.
Definition minute_of (local_seconds : Z) : Z := (local_seconds / 60) mod 60.
Definition day_of (local_seconds : Z) : Z := local_seconds / 86400.

(** Cache settings: [timedelta(minutes=5)] and [timedelta(hours=12)] in
    microseconds. *)
Definition CACHE_TTL_MINUTES : Z := 5.
Definition WEATHER_CACHE_TTL : Z := CACHE_TTL_MINUTES * 60 * 1000000.
Definition NASA_CACHE_TTL : Z := 12 * 3600 * 1000000.

(** ** Computations over the world that may raise *)

Definition M (A : Type) : Type := world -> result A * world.

Definition ret {A : Type} (a : A) : M A := fun w => (Ret a, w).

Definition raise {A : Type} (e : exn) : M A := fun w => (Raise e, w).

Definition mbind {A B : Type} (c : M A) (k : A -> M B) : M B :=
  fun w =>
    match c w with
    | (Ret a, w') => k a w'
    | (Raise e, w') => (Raise e, w')
    end.

(** [try: c  except Exception: h]; what [c] did before raising stays. *)
Definition try_catch {A : Type} (c : M A) (h : exn -> M A) : M A :=
  fun w =>
    match c w with
    | (Ret a, w') => (Ret a, w')
    | (Raise e, w') => h e w'
    end.

Definition lift {A : Type} (r : result A) : M A := fun w => (r, w).

Definition get : M world := fun w => (Ret w, w).

Definition modify (f : world -> world) : M unit := fun w => (Ret tt, f w).

Declare Scope bot_scope.
Delimit Scope bot_scope with bot.
Notation "x <- c ;; k" := (mbind c (fun x => k))
  (at level 100, c at next level, right associativity) : bot_scope.
Notation "c ;;; k" := (mbind c (fun _ => k))
  (at level 100, k at level 200, right associativity) : bot_scope.

Local Open Scope bot_scope.

(** [for x in xs: body(x)] *)
Fixpoint for_each {A : Type} (xs : list A) (body : A -> M unit) : M unit :=
  match xs with
  | [] => ret tt
  | x :: rest => body x ;;; for_each rest body
  end.

(** ** Helpers for values read from a station record *)

(** A method call on a value that must be a [str]. *)
Definition as_str (v : pyval) : result string :=
  match v with
  | VStr s => Ret s
  | _ => Raise AttributeError
  end.

(** Formatting with [:02d]: integers only. *)
Definition format_d (v : pyval) : result Z :=
  match v with
  | VInt n => Ret n
  | _ => Raise ValueError
  end.

(** Formatting with [:.4f]: numbers only. *)
Definition format_f (v : pyval) : result float :=
  match v with
  | VFloat x => Ret x
  | VInt n => Ret (float_of_Z n)
  | VStr _ => Raise ValueError
  end.

(** [hour == v] for an integer [hour]: a number equal to it. *)
Definition eq_int (hour : Z) (v : pyval) : bool :=
  match v with
  | VInt n => hour =? n
  | VFloat x => (float_of_Z hour =? x)%float
  | VStr _ => false
  end.

(** The argument [unit] of [convert_temperature] for a stored value: a
    value that is not a string equals none of the unit names. *)
Definition unit_arg (v : pyval) : string :=
  match v with
  | VStr s => s
  | _ => ""
  end.

(** [explanation[:500]], with ["..."] when something was cut. *)
Definition desc_short (explanation : string) : string :=
  if (500 <? String.length explanation)%nat
  then (String.substring 0 500 explanation ++ "...")%string
  else explanation.

(** The record [setlocation] stores. *)
Definition station_record (result : weather) (tz_str : string) : record :=
  <["city" := VStr (city_name result)]>
  (<["country" := VStr (country result)]>
  (<["lat" := VFloat (lat result)]>
  (<["lon" := VFloat (lon result)]>
  (<["tz" := VStr tz_str]>
  (<["temp_unit" := VStr "celsius"]>
  (<["report_hour" := VInt 8]> ∅)))))).

Section Operations.
Variable E : env.
Context `{Libm}.

(** A call to a collaborator: recorded, answered from the calls before it. *)
Definition call {A : Type} (ev : event) (answer : list event -> A) : M A :=
  fun w => (Ret (answer (trace w)), add_event ev w).

(** A call that raises when the collaborator says so. *)
Definition call_raising (ev : event) (answer : list event -> option exn) : M unit :=
  fun w =>
    (match answer (trace w) with
     | Some e => Raise e
     | None => Ret tt
     end, add_event ev w).

(** [interaction.response.send_message] and [interaction.followup.send] *)
Definition reply (msg : message) : M unit :=
  call_raising (EvRespond msg) (fun t => respond E t msg).

(** [user.send] *)
Definition send (user_id : Z) (msg : message) : M unit :=
  call_raising (EvSend user_id msg) (fun t => deliver E t user_id msg).

(** [with open(DB_FILE, 'w') as f: json.dump(data, f, indent=2)] *)
Definition write_db (data : gmap string record) : M unit :=
  fun w =>
    if write_ok E (trace w)
    then (Ret tt, set_db_file (JsonFile data) (add_event (EvWriteDb data) w))
    else (Raise OSError, add_event (EvWriteDb data) w).

Definition save_user_settings : M unit :=
  try_catch
    (w <- get ;; write_db (dump_settings (user_settings w)))
    (fun _ => ret tt).

Definition load_user_settings : M unit :=
  modify (fun w => set_user_settings (loaded_settings (db_file w)) w).

(** ** API functions with caching *)

Definition get_weather (clk : clock) (city : string) : M (option weather) :=
  let cache_key := lower city in
  w <- get ;;
  let hit :=
    match weather_cache w !! cache_key with
    | Some (cached_data, timestamp) =>
        if now clk - timestamp <? WEATHER_CACHE_TTL then Some cached_data else None
    | None => None
    end in
  match hit with
  | Some cached_data => ret (Some cached_data)
  | None =>
      fetched <- call (EvHttpWeather city) (fun t => http_weather E t city) ;;
      match fetched with
      | Some result =>
          modify (fun w => set_weather_cache
                    (<[cache_key := (result, now clk)]> (weather_cache w)) w) ;;;
          ret (Some result)
      | None => ret None
      end
  end.

Definition get_timezone_from_coords (lat lon : float) : string :=
  match timezone_at E lat lon with
  | Ret (Some tz_str) => if String.eqb tz_str "" then "UTC" else tz_str
  | Ret None => "UTC"
  | Raise _ => "UTC"
  end.

(** [get_local_time]: [None] stands for ["Unknown"]. *)
Definition get_local_time (clk : clock) (tz : pyval) : option Z :=
  match tz with
  | VStr tz_str =>
      match zone_now clk tz_str with
      | Ret t => Some t
      | Raise _ => None
      end
  | _ => None
  end.

Definition get_nasa_image (clk : clock) : M (option apod) :=
  w <- get ;;
  let hit :=
    match nasa_cache w with
    | Some (cached_data, timestamp) =>
        if now clk - timestamp <? NASA_CACHE_TTL then Some cached_data else None
    | None => None
    end in
  match hit with
  | Some cached_data => ret (Some cached_data)
  | None =>
      fetched <- call EvHttpNasa (fun t => http_nasa E t) ;;
      match fetched with
      | Some result =>
          modify (set_nasa_cache (Some (result, now clk))) ;;;
          ret (Some result)
      | None => ret None
      end
  end.

(** ** Slash commands that write settings *)

Definition setlocation (clk : clock) (user_id : Z) (city : string) : M unit :=
  try_catch
    (let city := strip city in
     if (String.length city =? 0)%nat || (100 <? String.length city)%nat
     then reply InvalidCityName
     else
       call_raising EvDefer (fun t => None) ;;;
       result <- get_weather clk city ;;
       match result with
       | None => reply (UnableToResolve city)
       | Some result =>
           let tz_str := get_timezone_from_coords (lat result) (lon result) in
           let local_time := get_local_time clk (VStr tz_str) in
           modify (fun w => set_user_settings
                     (<[user_id := station_record result tz_str]> (user_settings w)) w) ;;;
           save_user_settings ;;;
           reply (StationConfigured (city_name result) (country result)
                    (lat result) (lon result) tz_str local_time)
       end)
    (fun _ => reply SetLocationError).

(** [settings[key] = v], where [settings] is the dictionary stored under
    [user_id]: the assignment changes the stored dictionary itself. *)
Definition setitem (user_id : Z) (key : string) (v : pyval) : M unit :=
  modify (fun w => set_user_settings
            (alter (insert key v) user_id (user_settings w)) w).

(** The end of [settings]: show the settings, or save and confirm. *)
Definition settings_finish (user_id : Z) (changes : list change) : M unit :=
  match changes with
  | [] =>
      w <- get ;;
      let settings := default ∅ (user_settings w !! user_id) in
      temp_unit <- lift (as_str (get_default settings "temp_unit" (VStr "celsius"))) ;;
      rep_hour <- lift (format_d (get_default settings "report_hour" (VInt 8))) ;;
      reply (CurrentSettings temp_unit rep_hour)
  | _ =>
      save_user_settings ;;;
      reply (SettingsUpdated changes)
  end.

Definition settings (user_id : Z) (temperature_unit : option unit_choice)
    (report_hour : option Z) : M unit :=
  try_catch
    (w <- get ;;
     match user_settings w !! user_id with
     | None => reply ConfigureLocationFirst
     | Some _ =>
         changes <-
           match temperature_unit with
           | Some c =>
               setitem user_id "temp_unit" (VStr (choice_value c)) ;;;
               ret [ChangedUnit c]
           | None => ret []
           end ;;
         match report_hour with
         | Some h =>
             if negb ((0 <=? h) && (h <=? 23))
             then reply ReportHourOutOfRange
             else
               setitem user_id "report_hour" (VInt h) ;;;
               settings_finish user_id (changes ++ [ChangedHour h])
         | None => settings_finish user_id changes
         end
     end)
    (fun _ => reply SettingsError).

(** ** Scheduled daily reports *)

Definition build_report (clk : clock) (settings : record) (city : string)
    (country : pyval) (data : weather) : result report :=
  let temp_unit := unit_arg (get_default settings "temp_unit" (VStr "celsius")) in
  (dewpoint <- calculate_dewpoint (temp data) (humidity data) ;;
   heat_index <- calculate_heat_index (temp data) (humidity data) ;;
   air_density <- calculate_air_density (temp data) (pressure data) (humidity data) ;;
   cls <- classify_clouds_scientific (clouds data) ;;
   cloud_base <- calculate_cloud_base_height (temp data) dewpoint ;;
   wind_dir <- cardinal_direction (wind_deg data) ;;
   tz <- getitem settings "tz" ;;
   let local_time := get_local_time clk tz in
   t <- convert_temperature (temp data) temp_unit ;;
   feels <- convert_temperature (feels_like data) temp_unit ;;
   hi <- convert_temperature heat_index temp_unit ;;
   dew <- convert_temperature dewpoint temp_unit ;;
   lat_v <- getitem settings "lat" ;;
   lat_f <- format_f lat_v ;;
   lon_v <- getitem settings "lon" ;;
   lon_f <- format_f lon_v ;;
   report_hour <- format_d (get_default settings "report_hour" (VInt 8)) ;;
   Ret {| r_city := city; r_country := country; r_local_time := local_time;
          r_temp := fst t; r_feels := fst feels; r_dew := fst dew;
          r_hi := fst hi; r_unit_symbol := snd t;
          r_pressure := pressure data; r_humidity := humidity data;
          r_air_density := air_density; r_clouds := clouds data;
          r_oktas := snd cls; r_cloud_class := fst (fst cls);
          r_cloud_desc := snd (fst cls); r_cloud_base := cloud_base;
          r_wind_speed := wind_speed data; r_wind_dir := wind_dir;
          r_wind_deg := wind_deg data; r_description := description data;
          r_lat := lat_f; r_lon := lon_f; r_report_hour := report_hour |})%py.

Definition send_daily_report (clk : clock) (user_id : Z) (settings : record) : M unit :=
  try_catch
    (call_raising (EvFetchUser user_id) (fun t => fetch_user E t user_id) ;;;
     city_v <- lift (getitem settings "city") ;;
     country <- lift (getitem settings "country") ;;
     city <- lift (as_str city_v) ;;
     data <- get_weather clk city ;;
     match data with
     | None => ret tt
     | Some data =>
         r <- lift (build_report clk settings city country data) ;;
         send user_id (DailyReport r) ;;;
         image <- get_nasa_image clk ;;
         match image with
         | Some (url, title, explanation) =>
             send user_id (NasaImage url title (desc_short explanation))
         | None => ret tt
         end
     end)
    (fun _ => ret tt).

(** [pytz.timezone(tz_str)] and [datetime.now(tz)] *)
Definition local_now (clk : clock) (tz : pyval) : result Z :=
  match tz with
  | VStr tz_str => zone_now clk tz_str
  | _ => Raise UnknownTimeZoneError
  end.

(** The test of [check_and_send_reports] for one user: the [try] block up
    to the [if]. *)
Definition report_due (clk : clock) (settings : record) : result bool :=
  (tz_str <- getitem settings "tz" ;;
   let report_hour := get_default settings "report_hour" (VInt 8) in
   local_time <- local_now clk tz_str ;;
   Ret (eq_int (hour_of local_time) report_hour && (minute_of local_time <? 5)))%py.

Definition check_user (clk : clock) (user_id : Z) (settings : record) : M unit :=
  try_catch
    (due <- lift (report_due clk settings) ;;
     if due then send_daily_report clk user_id settings else ret tt)
    (fun _ => ret tt).

Definition check_and_send_reports (clk : clock) : M unit :=
  w <- get ;;
  for_each (map_to_list (user_settings w))
           (fun '(user_id, settings) => check_user clk user_id settings).

(** [on_ready] loads the settings; the scheduler then runs the sweep at
    each tick, here one clock reading per tick. *)
Definition on_ready : M unit := load_user_settings.

Definition scheduler (ticks : list clock) : M unit :=
  for_each ticks check_and_send_reports.

(** ** Slash commands that read settings *)

Definition build_analysis (clk : clock) (settings : record) (city : string)
    (data : weather) : result analysis :=
  let temp_unit := unit_arg (get_default settings "temp_unit" (VStr "celsius")) in
  (dewpoint <- calculate_dewpoint (temp data) (humidity data) ;;
   heat_index <- calculate_heat_index (temp data) (humidity data) ;;
   air_density <- calculate_air_density (temp data) (pressure data) (humidity data) ;;
   cls <- classify_clouds_scientific (clouds data) ;;
   cloud_base <- calculate_cloud_base_height (temp data) dewpoint ;;
   wind_dir <- cardinal_direction (wind_deg data) ;;
   let vis := get_visibility_category (visibility data) in
   tz <- getitem settings "tz" ;;
   let local_time := get_local_time clk tz in
   t <- convert_temperature (temp data) temp_unit ;;
   feels <- convert_temperature (feels_like data) temp_unit ;;
   hi <- convert_temperature heat_index temp_unit ;;
   dew <- convert_temperature dewpoint temp_unit ;;
   country <- getitem settings "country" ;;
   lat_v <- getitem settings "lat" ;;
   lat_f <- format_f lat_v ;;
   lon_v <- getitem settings "lon" ;;
   lon_f <- format_f lon_v ;;
   Ret {| a_city := city; a_country := country; a_local_time := local_time;
          a_temp := fst t; a_feels := fst feels; a_hi := fst hi;
          a_dew := fst dew; a_unit_symbol := snd t;
          a_pressure := pressure data; a_humidity := humidity data;
          a_air_density := air_density; a_clouds := clouds data;
          a_oktas := snd cls; a_cloud_class := fst (fst cls);
          a_cloud_desc := snd (fst cls); a_cloud_base := cloud_base;
          a_wind_speed := wind_speed data; a_wind_deg := wind_deg data;
          a_wind_dir := wind_dir; a_visibility := vis;
          a_description := description data;
          a_lat := lat_f; a_lon := lon_f |})%py.

Definition atmosphere (clk : clock) (user_id : Z) : M unit :=
  try_catch
    (w <- get ;;
     match user_settings w !! user_id with
     | None => reply NoStationConfigured
     | Some settings =>
         call_raising EvDefer (fun t => None) ;;;
         city_v <- lift (getitem settings "city") ;;
         city <- lift (as_str city_v) ;;
         data <- get_weather clk city ;;
         match data with
         | None => reply DataAcquisitionFailed
         | Some data =>
             a <- lift (build_analysis clk settings city data) ;;
             reply (AtmosphericAnalysis a)
         end
     end)
    (fun _ => reply AtmosphereError).

Definition nasa (clk : clock) : M unit :=
  try_catch
    (call_raising EvDefer (fun t => None) ;;;
     image <- get_nasa_image clk ;;
     match image with
     | None => reply NasaApiError
     | Some (url, title, explanation) =>
         reply (NasaImage url title (desc_short explanation))
     end)
    (fun _ => reply NasaCommandError).

Definition station (clk : clock) (user_id : Z) : M unit :=
  try_catch
    (w <- get ;;
     match user_settings w !! user_id with
     | None => reply NoStationInitialized
     | Some settings =>
         tz <- lift (getitem settings "tz") ;;
         let local_time := get_local_time clk tz in
         temp_unit <- lift (as_str (get_default settings "temp_unit" (VStr "celsius"))) ;;
         let report_hour := get_default settings "report_hour" (VInt 8) in
         city <- lift (getitem settings "city") ;;
         country <- lift (getitem settings "country") ;;
         lat_v <- lift (getitem settings "lat") ;;
         lat_f <- lift (format_f lat_v) ;;
         lon_v <- lift (getitem settings "lon") ;;
         lon_f <- lift (format_f lon_v) ;;
         rep_hour <- lift (format_d report_hour) ;;
         reply (StationStatus city country lat_f lon_f tz local_time temp_unit rep_hour)
     end)
    (fun _ => reply StationError).

(** [signal_handler]: save, then exit. *)
Definition signal_handler : M unit := save_user_settings.

End Operations.

End Bot.

(* ===================================================================== *)
(** * Reference definitions the theorems compare the code with *)
(* ===================================================================== *)

Module Reference.
Import Py Meteo.

(** [round(degrees / 22.5)] in exact arithmetic, for a whole number of
    degrees: the integer nearest to [2 * degrees / 45]. *)
Definition exact_sector (degrees : Z) : Z := div_half_even (2 * degrees) 45.

(** For one whole number of degrees: [cardinal_direction] returns the
    label at index [exact_sector degrees mod 16], that compass point lies
    within 11.25 degrees of the direction, and from 349 degrees on the
    label is ["N"]. *)
Definition cardinal_agrees (degrees : Z) : bool :=
  match cardinal_direction (float_of_Z degrees),
        directions !! Z.to_nat (exact_sector degrees mod 16) with
  | Ret label, Some expected =>
      String.eqb label expected
      && (Z.abs (2 * degrees - 45 * exact_sector degrees) <=? 22)
      && (if 349 <=? degrees then String.eqb label "N" else true)
  | _, _ => false
  end.

Import Store Bot.

(** The entry of the weather cache that a lookup at [now] may still
    serve. *)
Definition weather_hit (clk : clock) (w : world) (city : string) : option weather :=
  match weather_cache w !! lower city with
  | Some (cached_data, timestamp) =>
      if now clk - timestamp <? WEATHER_CACHE_TTL then Some cached_data else None
  | None => None
  end.

Definition nasa_hit (clk : clock) (w : world) : option apod :=
  match nasa_cache w with
  | Some (cached_data, timestamp) =>
      if now clk - timestamp <? NASA_CACHE_TTL then Some cached_data else None
  | None => None
  end.

(** The strings [str] produces after an optional sign: decimal digits only. *)
Fixpoint all_digits (s : string) : bool :=
  match s with
  | EmptyString => true
  | String c r => is_digit c && all_digits r
  end.

(** ** A [Libm] for evaluation

    Series for [exp] and [log]; they agree with the C library to about
    fifteen digits, not bit for bit.  The theorems hold for every [Libm];
    this one serves to run the definitions. *)

Definition ln2 : float := 0.6931471805599453%float.

(** [acc + term * x / i + term * x^2 / (i (i+1)) + ...], [n] terms. *)
Fixpoint exp_terms (n : nat) (x i term acc : float) : float :=
  match n with
  | O => acc
  | S n' =>
      let term' := (term * x / i)%float in
      exp_terms n' x (i + 1)%float term' (acc + term')%float
  end.

Definition series_exp (x : float) : float :=
  if is_nan x then x
  else if (709.782712893384 <? x)%float then infinity
  else if (x <? -745.2)%float then 0%float
  else
    let k := match py_round (x / ln2)%float with Ret k => k | Raise _ => 0 end in
    let r := (x - float_of_Z k * ln2)%float in
    FloatOps.Z.ldexp (exp_terms 20 r 1 1 1) k.

(** [t + t^3 / 3 + t^5 / 5 + ...], [n] terms. *)
Fixpoint atanh_terms (n : nat) (t2 i power acc : float) : float :=
  match n with
  | O => acc
  | S n' =>
      let power' := (power * t2)%float in
      atanh_terms n' t2 (i + 2)%float power' (acc + power' / i)%float
  end.

Definition series_log (x : float) : float :=
  let '(m, e) := FloatOps.Z.frexp x in
  let t := ((m - 1) / (m + 1))%float in
  (2 * atanh_terms 24 (t * t) 3 t t + float_of_Z e * ln2)%float.

Definition series_libm : Libm := {| c_log := series_log; c_exp := series_exp |}.

(** ** Reading the trace of a sweep *)

(** The users for whom [send_daily_report] was started: it begins with
    [bot.fetch_user(user_id)], and nothing else calls [fetch_user]. *)
Definition fetched (t : list event) : list Z :=
  omap (fun ev => match ev with EvFetchUser user_id => Some user_id | _ => None end) t.

(** The users of [items] whose test in [check_and_send_reports] succeeds
    at [clk], in the order of [items]. *)
Definition due_users (clk : clock) (items : list (Z * record)) : list Z :=
  omap (fun '(user_id, settings) =>
          match report_due clk settings with
          | Ret true => Some user_id
          | _ => None
          end) items.

(** The number of reports started for [user_id] in a trace. *)
Definition reports_for (user_id : Z) (t : list event) : nat :=
  length (filter (fun u => u = user_id) (fetched t)).

(** The number of ticks at which the test of [settings] succeeds. *)
Fixpoint count_due (settings : record) (ticks : list clock) : nat :=
  match ticks with
  | [] => 0
  | clk :: rest =>
      match report_due clk settings with
      | Ret true => S (count_due settings rest)
      | _ => count_due settings rest
      end
  end.

(** The reading of [clk] in zone [tz] lies in the [k]-th five-minute slot
    of local day [d]: from minute [5 k] of that day up to, not
    including, minute [5 (k + 1)]. *)
Definition in_slot (tz : string) (d : Z) (clk : clock) (k : Z) : Prop :=
  exists r, zone_now clk tz = Ret r /\
            86400 * d + 300 * k <= r < 86400 * d + 300 * (k + 1).

(** The slots of one day, one per tick of [cron(minute='*/5')]. *)
Definition day_slots : list Z := map Z.of_nat (seq 0 288).

(** [stable us c]: whatever the collaborators answer, [c] leaves the
    settings and the database file as they are, and the reports it starts
    are those of [us]. *)
Definition stable {A : Type} (us : list Z) (c : M A) : Prop :=
  forall w,
    user_settings (snd (c w)) = user_settings w /\
    db_file (snd (c w)) = db_file w /\
    exists t, trace (snd (c w)) = trace w ++ t /\ fetched t = us.

(** ** Classes of calls *)

(** Requests to the two data providers. *)
Definition is_request (ev : event) : Prop :=
  match ev with
  | EvHttpWeather _ | EvHttpNasa => True
  | _ => False
  end.

(** Answers to the interaction that started a command. *)
Definition is_reply (ev : event) : Prop :=
  match ev with
  | EvRespond _ | EvDefer => True
  | _ => False
  end.

(** Looking up [user_id] and sending a direct message to [user_id]. *)
Definition for_user (user_id : Z) (ev : event) : Prop :=
  match ev with
  | EvFetchUser u | EvSend u _ => u = user_id
  | _ => False
  end.

(** [confined P c]: whatever the collaborators answer, [c] leaves the
    settings and the database file as they are, removes no city from the
    weather cache, does not empty the picture cache, and makes only calls
    that satisfy [P]. *)
Definition confined {A : Type} (P : event -> Prop) (c : M A) : Prop :=
  forall w,
    user_settings (snd (c w)) = user_settings w /\
    db_file (snd (c w)) = db_file w /\
    dom (weather_cache w) ⊆ dom (weather_cache (snd (c w))) /\
    (is_Some (nasa_cache w) -> is_Some (nasa_cache (snd (c w)))) /\
    exists t, trace (snd (c w)) = trace w ++ t /\ Forall P t.

(** The calls of one daily report after the user lookup: at most one
    weather request, then nothing or the report, then at most one picture
    request and at most one picture. *)
Definition lookup_shape (t : list event) : Prop :=
  t = [] \/ exists city, t = [EvHttpWeather city].

Definition picture_shape (user_id : Z) (t : list event) : Prop :=
  t = [] \/ t = [EvHttpNasa] \/
  exists url title explanation,
    t = [EvSend user_id (NasaImage url title explanation)] \/
    t = [EvHttpNasa; EvSend user_id (NasaImage url title explanation)].

Definition report_shape (user_id : Z) (t : list event) : Prop :=
  t = [] \/
  exists r p, t = EvSend user_id (DailyReport r) :: p /\ picture_shape user_id p.

(** [traces S c]: whatever the collaborators answer, the calls that [c]
    makes, in their order, satisfy [S]. *)
Definition traces {A : Type} (S : list event -> Prop) (c : M A) : Prop :=
  forall w, exists t, trace (snd (c w)) = trace w ++ t /\ S t.

(** One list of calls after another, where the second may be missing. *)
Definition then_maybe (S1 S2 : list event -> Prop) (t : list event) : Prop :=
  exists t1 t2, t = t1 ++ t2 /\ S1 t1 /\ (t2 = [] \/ S2 t2).

(** Picture messages whose text is at most 503 characters long. *)
Definition short_picture (ev : event) : Prop :=
  match ev with
  | EvRespond (NasaImage _ _ d) | EvSend _ (NasaImage _ _ d) =>
      (String.length d <= 503)%nat
  | _ => True
  end.

(** The daily report [r] and the analysis [a] show the same readings. *)
Definition same_readings (r : report) (a : analysis) : Prop :=
  r_local_time r = a_local_time a /\
  r_temp r = a_temp a /\ r_feels r = a_feels a /\
  r_hi r = a_hi a /\ r_dew r = a_dew a /\
  r_unit_symbol r = a_unit_symbol a /\
  r_air_density r = a_air_density a /\
  r_oktas r = a_oktas a /\ r_cloud_class r = a_cloud_class a /\
  r_cloud_desc r = a_cloud_desc a /\ r_cloud_base r = a_cloud_base a /\
  r_wind_dir r = a_wind_dir a /\
  r_lat r = a_lat a /\ r_lon r = a_lon a.

(** [answered_with hint err w w']: from [w] to [w'] nothing happened but
    the reply [hint] and, when sending it raised, the reply [err] of the
    command's handler; settings, caches and file are as they were. *)
Definition answered_with (hint err : message) (w w' : world) : Prop :=
  user_settings w' = user_settings w /\
  weather_cache w' = weather_cache w /\
  nasa_cache w' = nasa_cache w /\
  db_file w' = db_file w /\
  (trace w' = trace w ++ [EvRespond hint] \/
   trace w' = trace w ++ [EvRespond hint; EvRespond err]).

(** The record after [settings] assigned the values it was given. *)
Definition updated_record (old : record) (temperature_unit : option unit_choice)
    (report_hour : option Z) : record :=
  let with_unit :=
    match temperature_unit with
    | Some c => <["temp_unit"%string := VStr (choice_value c)]> old
    | None => old
    end in
  match report_hour with
  | Some h => <["report_hour"%string := VInt h]> with_unit
  | None => with_unit
  end.

(** The list [changes] that [settings] builds. *)
Definition changes_of (temperature_unit : option unit_choice)
    (report_hour : option Z) : list change :=
  match temperature_unit with Some c => [ChangedUnit c] | None => [] end
  ++ match report_hour with Some h => [ChangedHour h] | None => [] end.

(** ** Checks over whole numbers, decided by evaluation *)

(** The band of a whole cloud percentage. *)
Definition cloud_band (pct : Z) : string :=
  if pct <=? 6 then "SKC"
  else if pct <=? 31 then "FEW"
  else if pct <=? 56 then "SCT"
  else if pct <=? 93 then "BKN"
  else "OVC".

(** For one whole percentage: the oktas lie in 0..8; from 0 to 100 the
    code is the band of the percentage and the oktas are the integer
    nearest to [pct / 12.5 = 2 pct / 25]; from 107 on and from -7 down
    the answer is the overcast row. *)
Definition clouds_agree (pct : Z) : bool :=
  match classify_clouds_scientific (float_of_Z pct) with
  | Ret (code, _, oktas) =>
      (0 <=? oktas) && (oktas <=? 8)
      && (if (0 <=? pct) && (pct <=? 100)
          then String.eqb code (cloud_band pct)
               && (oktas =? div_half_even (2 * pct) 25)
          else true)
      && (if (pct <=? -7) || (107 <=? pct)
          then String.eqb code "OVC" && (oktas =? 8)
          else true)
  | Raise _ => false
  end.

(** For one whole number of degrees: the label is that of the direction
    reduced to 0..359. *)
Definition cardinal_wraps (degrees : Z) : bool :=
  match cardinal_direction (float_of_Z degrees),
        cardinal_direction (float_of_Z (degrees mod 360)) with
  | Ret a, Ret b => String.eqb a b
  | _, _ => false
  end.

(** The whole numbers from [lo] on, [n] of them. *)
Definition range (lo : Z) (n : nat) : list Z :=
  map (fun i => lo + Z.of_nat i) (seq 0 n).

(** ** Sample data, for evaluating the definitions on concrete inputs *)

Definition sample_weather : weather :=
  {| temp := 20; feels_like := 19.5; pressure := 1013; humidity := 50;
     clouds := 40; wind_speed := 3.6; wind_deg := 354; visibility := 10000;
     description := "scattered clouds"; condition_id := 802;
     lat := 48.8534; lon := 2.3488; city_name := "Paris"; country := "FR" |}.

Definition sample_apod : apod := ("https://apod.example/image.jpg", "Sky", "A picture.")%string.

(** Collaborators: the first weather request of a process fails, later
    ones succeed; user 2 has direct messages disabled. *)
Definition sample_env : env :=
  {| http_weather := fun t _ => match t with [] => None | _ => Some sample_weather end;
     http_nasa := fun _ => Some sample_apod;
     fetch_user := fun _ _ => None;
     deliver := fun _ user_id _ => if user_id =? 2 then Some Forbidden else None;
     respond := fun _ _ => None;
     timezone_at := fun _ _ => Ret (Some "Europe/Paris"%string);
     write_ok := fun _ => true |}.

(** Collaborators when nothing outside the process works: requests and
    the time-zone lookup fail, the file cannot be written. *)
Definition offline_env : env :=
  {| http_weather := fun _ _ => None;
     http_nasa := fun _ => None;
     fetch_user := fun _ _ => None;
     deliver := fun _ _ _ => None;
     respond := fun _ _ => None;
     timezone_at := fun _ _ => Raise OSError;
     write_ok := fun _ => false |}.

(** A clock at [t] microseconds; Paris is one hour ahead of UTC. *)
Definition clock_at (t : Z) : clock :=
  {| now := t;
     zone_now := fun tz =>
       if String.eqb tz "Europe/Paris" then Ret (t / 1000000 + 3600)
       else if String.eqb tz "UTC" then Ret (t / 1000000)
       else Raise UnknownTimeZoneError |}.

Definition empty_world : world :=
  {| user_settings := ∅; weather_cache := ∅; nasa_cache := None;
     db_file := NoFile; trace := [] |}.

(** A registered user: user 1, in Paris, report hour 8. *)
Definition paris_record : record := station_record sample_weather "Europe/Paris".

Definition registered_world : world :=
  set_user_settings {[ 1 := paris_record ]} empty_world.

(** A day of ticks read in Paris: tick [k] fires [phase] seconds after
    minute [5 k] of local day 0. *)
Definition day_ticks (phase : Z) : list clock :=
  map (fun k => clock_at ((300 * k + phase - 3600) * 1000000)) day_slots.

(** User 1 after changing both preferences. *)
Definition customised_world : world :=
  set_user_settings
    {[ 1 := <["temp_unit"%string := VStr "kelvin"]>
              (<["report_hour"%string := VInt 20]> paris_record) ]}
    empty_world.

End Reference.

(* ===================================================================== *)
(** * Facts about binary64 comparisons and division *)
(* ===================================================================== *)

Section FloatFacts.
Import Py.

Lemma SFcompare_antisym (a b : spec_float) :
  SFcompare a b = option_map CompOpp (SFcompare b a).
Proof.
  destruct a as [[]|[]| |[] m1 e1], b as [[]|[]| |[] m2 e2]; simpl; try reflexivity.
  - rewrite (Z.compare_antisym e2 e1).
    destruct (e2 ?= e1); simpl; try reflexivity.
    rewrite (Pos.compare_cont_antisym m2 m1 Eq). reflexivity.
  - rewrite (Z.compare_antisym e2 e1).
    destruct (e2 ?= e1); simpl; try reflexivity.
    rewrite (Pos.compare_cont_antisym m2 m1 Eq). reflexivity.
Qed.

Lemma SFcompare_refl (a : spec_float) :
  a <> S754_nan -> SFcompare a a = Some Eq.
Proof.
  destruct a as [[]|[]| |[] m e]; simpl; intros Hn; try reflexivity;
    try congruence; rewrite Z.compare_refl, Pos.compare_cont_refl; reflexivity.
Qed.

(** [y <= x] excludes [x < y]. *)
Lemma leb_ltb_false (x y : float) :
  (y <=? x)%float = true -> (x <? y)%float = false.
Proof.
  rewrite FloatAxioms.leb_spec, FloatAxioms.ltb_spec. unfold SFleb, SFltb.
  rewrite (SFcompare_antisym (Prim2SF x) (Prim2SF y)).
  destruct (SFcompare (Prim2SF y) (Prim2SF x)) as [[]|]; simpl; congruence.
Qed.

(** A float that compares is not NaN. *)
Lemma leb_is_nan_false (x y : float) :
  (x <=? y)%float = true -> is_nan x = false.
Proof.
  rewrite FloatAxioms.leb_spec. unfold is_nan. rewrite FloatAxioms.eqb_spec. unfold SFleb, SFeqb.
  intros Hle.
  rewrite SFcompare_refl; [reflexivity|].
  intros Hn. rewrite Hn in Hle. simpl in Hle. discriminate.
Qed.

Lemma shr_1_nonneg (mrs : shr_record) :
  0 <= shr_m mrs -> 0 <= shr_m (shr_1 mrs).
Proof.
  destruct mrs as [m r s]. simpl. destruct m as [|[p|p|]|p]; simpl; lia.
Qed.

Lemma iter_shr_1_nonneg (p : positive) (mrs : shr_record) :
  0 <= shr_m mrs -> 0 <= shr_m (SpecFloat.iter_pos shr_1 p mrs).
Proof.
  revert mrs. induction p as [p IH|p IH|]; intros mrs Hm; simpl.
  - apply IH, IH, shr_1_nonneg, Hm.
  - apply IH, IH, Hm.
  - apply shr_1_nonneg, Hm.
Qed.

Lemma shr_fexp_nonneg (m e : Z) (l : location) :
  0 <= m -> 0 <= shr_m (fst (shr_fexp prec emax m e l)).
Proof.
  intros Hm. unfold shr_fexp, shr.
  assert (Hr : 0 <= shr_m (shr_record_of_loc m l)).
  { destruct l as [|[]]; simpl; exact Hm. }
  destruct (fexp prec emax (Zdigits2 m + e) - e); simpl;
    [exact Hr | apply iter_shr_1_nonneg, Hr | exact Hr].
Qed.

Lemma round_nearest_even_nonneg (m : Z) (l : location) :
  0 <= m -> 0 <= round_nearest_even m l.
Proof.
  intros Hm. destruct l as [|[]]; simpl; try lia.
  destruct (Z.even m); lia.
Qed.

(** Rounding keeps the sign it is given. *)
Lemma binary_round_aux_sign (m e : Z) (l : location) :
  0 <= m ->
  SFleb (binary_round_aux prec emax true m e l) (S754_zero false) = true.
Proof.
  intros Hm. unfold binary_round_aux.
  pose proof (shr_fexp_nonneg m e l Hm) as H1.
  destruct (shr_fexp prec emax m e l) as [mrs' e']. simpl in H1.
  pose proof (shr_fexp_nonneg _ e' loc_Exact
                (round_nearest_even_nonneg _ (loc_of_shr_record mrs') H1)) as H2.
  destruct (shr_fexp prec emax _ e' loc_Exact) as [mrs'' e'']. simpl in H2.
  destruct (shr_m mrs'') as [|q|q]; [reflexivity| |lia].
  destruct (e'' <=? emax - prec); reflexivity.
Qed.

Lemma SFdiv_core_nonneg (m1 m2 : positive) (e1 e2 : Z) :
  0 <= fst (fst (SFdiv_core_binary prec emax (Z.pos m1) e1 (Z.pos m2) e2)).
Proof.
  unfold SFdiv_core_binary.
  set (s := e1 - e2 - _).
  set (m' := match s with Z0 => Z.pos m1 | Z.pos _ => Z.shiftl (Z.pos m1) s | Z.neg _ => 0 end).
  assert (Hm' : 0 <= m').
  { subst m'. destruct s; try lia. apply Z.shiftl_nonneg. lia. }
  pose proof (Z.div_pos m' (Z.pos m2) Hm' eq_refl) as Hq.
  unfold Z.div in Hq.
  destruct (Z.div_eucl m' (Z.pos m2)) as [q r]. exact Hq.
Qed.

(** Dividing a float that is at most zero by [100.0] gives a float that is
    at most zero. *)
Lemma div_100_nonpos (h : float) :
  (h <=? 0)%float = true -> (h / 100 <=? 0)%float = true.
Proof.
  rewrite !FloatAxioms.leb_spec, FloatAxioms.div_spec.
  change (Prim2SF 0) with (S754_zero false).
  change (Prim2SF 100) with (S754_finite false 7036874417766400 (-46)).
  destruct (Prim2SF h) as [s|s| |s m e]; simpl; intros Hle.
  - reflexivity.
  - destruct s; [reflexivity|discriminate].
  - discriminate.
  - destruct s; [|discriminate].
    pose proof (SFdiv_core_nonneg m 7036874417766400 e (-46)) as Hq.
    unfold SF64div, SFdiv.
    destruct (SFdiv_core_binary prec emax (Z.pos m) e (Z.pos 7036874417766400) (-46))
      as [[mz ez] lz].
    simpl in Hq. apply binary_round_aux_sign, Hq.
Qed.

End FloatFacts.

(* ===================================================================== *)
(** * The calculations *)
(* ===================================================================== *)

Section MeteoFacts.
Import Py Meteo.
Context `{Libm}.
Local Open Scope py_scope.

Lemma py_truediv_nonzero (x y : float) :
  (y =? 0)%float = false -> py_truediv x y = Ret (x / y)%float.
Proof. intros Hy. unfold py_truediv. now rewrite Hy. Qed.

Lemma py_truediv_zero (x y : float) :
  (y =? 0)%float = true -> py_truediv x y = Raise ZeroDivisionError.
Proof. intros Hy. unfold py_truediv. now rewrite Hy. Qed.

Lemma try_except_returns {A : Type} (c : result A) (h : exn -> result A) :
  (forall e, returns (h e)) -> returns (try_except c h).
Proof.
  intros Hh. destruct c as [a|e]; simpl; [now exists a | apply Hh].
Qed.

Lemma try_except_raise {A : Type} (c : result A) (a : A) :
  (forall b, c <> Ret b) -> try_except c (fun _ => Ret a) = Ret a.
Proof.
  intros Hc. destruct c as [b|e]; simpl; [now destruct (Hc b) | reflexivity].
Qed.

Lemma fahrenheit_of_eq (temp_c : float) :
  fahrenheit_of temp_c = Ret (temp_c * 9 / 5 + 32)%float.
Proof. reflexivity. Qed.

Lemma is_nan_Prim2SF (x : float) :
  is_nan x = true -> Prim2SF x = S754_nan.
Proof. intros Hx. unfold Prim2SF. now rewrite Hx. Qed.

Lemma is_infinity_Prim2SF (x : float) :
  is_infinity x = true -> exists s, Prim2SF x = S754_infinity s.
Proof.
  unfold is_infinity. rewrite FloatAxioms.eqb_spec, FloatAxioms.abs_spec.
  change (Prim2SF infinity) with (S754_infinity false).
  destruct (Prim2SF x) as [s|s| |s m e]; simpl; try discriminate.
  intros _. now exists s.
Qed.

(** [math.log] raises on every argument that is at most zero. *)
Lemma math_log_nonpos (x : float) :
  (x <=? 0)%float = true -> math_log x = Raise ValueError.
Proof.
  intros Hx. unfold math_log.
  rewrite (leb_is_nan_false x 0 Hx), (leb_ltb_false 0 x Hx). reflexivity.
Qed.

End MeteoFacts.

Section MeteoClaims.
Import Py Meteo.
Context `{Libm}.
Local Open Scope py_scope.

(** C7 (heat-index short-circuit).  When the Fahrenheit conversion
    [temp_c * 9/5 + 32] of the input is strictly below 80,
    [calculate_heat_index] returns the input temperature itself, for every
    humidity.  When it is at least 80 the result is the regression
    polynomial in the Fahrenheit temperature and the humidity, converted
    back to Celsius and rounded to two decimals. *)
Theorem heat_index_short_circuit (temp_c humidity : float) :
  let temp_f := (temp_c * 9 / 5 + 32)%float in
  let hi :=
    (-42.379 + 2.04901523 * temp_f + 10.14333127 * humidity
     - 0.22475541 * temp_f * humidity
     - 0.00683783 * temp_f * temp_f
     - 0.05481717 * humidity * humidity
     + 0.00122874 * temp_f * temp_f * humidity
     + 0.00085282 * temp_f * humidity * humidity
     - 0.00000199 * temp_f * temp_f * humidity * humidity)%float in
  ((temp_f <? 80)%float = true ->
     calculate_heat_index temp_c humidity = Ret temp_c) /\
  ((80 <=? temp_f)%float = true ->
     calculate_heat_index temp_c humidity =
       Ret (py_round_n ((hi - 32) * 5 / 9)%float 2)).
Proof.
  intros temp_f hi. unfold calculate_heat_index, heat_index_body.
  rewrite fahrenheit_of_eq. cbn [bind]. fold temp_f. split; intros Hf.
  - rewrite Hf. reflexivity.
  - rewrite (leb_ltb_false temp_f 80 Hf).
    rewrite py_truediv_nonzero by reflexivity. reflexivity.
Qed.

Lemma dewpoint_nonpos_humidity (temp_c humidity : float) :
  (humidity <=? 0)%float = true -> calculate_dewpoint temp_c humidity = Ret 0%float.
Proof.
  intros Hh. unfold calculate_dewpoint. apply try_except_raise. intros b.
  unfold dewpoint_body, dewpoint_alpha.
  destruct (py_truediv _ _) as [q|e]; cbn [bind]; [|discriminate].
  rewrite py_truediv_nonzero by reflexivity. cbn [bind].
  rewrite (math_log_nonpos _ (div_100_nonpos humidity Hh)). discriminate.
Qed.

Lemma dewpoint_zero_denominator (temp_c humidity alpha : float) :
  dewpoint_alpha temp_c humidity = Ret alpha ->
  (VAPOR_PRESSURE_COEFF - alpha =? 0)%float = true ->
  calculate_dewpoint temp_c humidity = Ret 0%float.
Proof.
  intros Ha Hz. unfold calculate_dewpoint, dewpoint_body.
  rewrite Ha. cbn [bind]. rewrite (py_truediv_zero _ _ Hz). reflexivity.
Qed.

Lemma air_density_fallback (temp_c pressure_hpa humidity : float) :
  (forall d, air_density_body temp_c pressure_hpa humidity <> Ret d) ->
  calculate_air_density temp_c pressure_hpa humidity = Ret 1.225%float.
Proof. apply try_except_raise. Qed.

Lemma air_density_zero_divisor (temp_c pressure_hpa humidity : float) :
  (GAS_CONSTANT_DRY_AIR * (temp_c + KELVIN_OFFSET) =? 0)%float = true ->
  calculate_air_density temp_c pressure_hpa humidity = Ret 1.225%float.
Proof.
  intros Hz. apply air_density_fallback. intros d.
  unfold air_density_body.
  destruct (py_truediv _ _) as [q|e]; cbn [bind]; [|discriminate].
  destruct (math_exp q) as [x|e]; cbn [bind]; [|discriminate].
  rewrite py_truediv_nonzero by reflexivity. cbn [bind].
  rewrite (py_truediv_zero _ _ Hz). discriminate.
Qed.

Lemma air_density_exponent_zero_divisor (temp_c pressure_hpa humidity : float) :
  (temp_c + VAPOR_PRESSURE_TEMP_BASE =? 0)%float = true ->
  calculate_air_density temp_c pressure_hpa humidity = Ret 1.225%float.
Proof.
  intros Hz. apply air_density_fallback. intros d.
  unfold air_density_body. rewrite (py_truediv_zero _ _ Hz). discriminate.
Qed.

Lemma air_density_overflow (temp_c pressure_hpa humidity q : float) :
  py_truediv (VAPOR_PRESSURE_COEFF * temp_c)%float
             (temp_c + VAPOR_PRESSURE_TEMP_BASE)%float = Ret q ->
  math_exp q = Raise OverflowError ->
  calculate_air_density temp_c pressure_hpa humidity = Ret 1.225%float.
Proof.
  intros Hq Hx. apply air_density_fallback. intros d.
  unfold air_density_body. rewrite Hq. cbn [bind]. rewrite Hx. discriminate.
Qed.

Lemma cloud_base_height_failure (temp_c dewpoint : float) :
  let height := (125 * (temp_c - dewpoint))%float in
  is_nan height = true \/ is_infinity height = true ->
  calculate_cloud_base_height temp_c dewpoint = Ret 0.
Proof.
  intros height Hh. unfold calculate_cloud_base_height, cloud_base_height_body.
  fold height. unfold py_int.
  destruct Hh as [Hn|Hi].
  - now rewrite (is_nan_Prim2SF _ Hn).
  - destruct (is_infinity_Prim2SF _ Hi) as [s Hs]. now rewrite Hs.
Qed.


End MeteoClaims.

Section ConversionClaims.
Import Py Meteo.
Local Open Scope py_scope.

(** C4, as the code has it.  [convert_temperature] returns a value for
    every temperature and every unit string and never fails: the
    Fahrenheit transform for ["fahrenheit"], the Kelvin transform for
    ["kelvin"], and for every other string, ["celsius"] or not, the input
    with the symbol of Celsius; each value rounded to one decimal. *)
Theorem convert_temperature_defaults_to_celsius (temp_c : float) (unit : string) :
  (unit = "fahrenheit"%string ->
     convert_temperature temp_c unit =
       Ret (py_round_n (temp_c * 9 / 5 + 32)%float 1, "°F"%string)) /\
  (unit = "kelvin"%string ->
     convert_temperature temp_c unit =
       Ret (py_round_n (temp_c + 273.15)%float 1, "K"%string)) /\
  (unit <> "fahrenheit"%string -> unit <> "kelvin"%string ->
     convert_temperature temp_c unit =
       Ret (py_round_n temp_c 1, "°C"%string)) /\
  returns (convert_temperature temp_c unit).
Proof.
  unfold convert_temperature.
  destruct (String.eqb_spec unit "fahrenheit") as [Hf|Hf];
    [|destruct (String.eqb_spec unit "kelvin") as [Hk|Hk]];
    try subst unit; repeat split;
    try congruence; try discriminate; try (eexists; reflexivity).
Qed.

(** C4 as stated fails: a unit outside the three names is not rejected,
    the call returns the Celsius value. *)
Lemma convert_temperature_unknown_unit_not_rejected :
  convert_temperature 20.55 "rankine" = Ret (20.6%float, "°C"%string) /\
  ~ (exists e, convert_temperature 20.55 "rankine" = Raise e).
Proof.
  split; [vm_compute; reflexivity|].
  intros [e He]. vm_compute in He. discriminate.
Qed.

(** The theorem at concrete inputs. *)
Lemma convert_temperature_defaults_to_celsius_witness :
  convert_temperature 20 "fahrenheit" = Ret (68%float, "°F"%string) /\
  convert_temperature 20.55 "kelvin" = Ret (293.7%float, "K"%string) /\
  convert_temperature 20.55 "celsius" = Ret (20.6%float, "°C"%string) /\
  convert_temperature 20.55 "rankine" = Ret (20.6%float, "°C"%string).
Proof.
  pose proof (convert_temperature_defaults_to_celsius 20 "fahrenheit") as (Hf & _).
  pose proof (convert_temperature_defaults_to_celsius 20.55 "kelvin") as (_ & Hk & _).
  pose proof (convert_temperature_defaults_to_celsius 20.55 "celsius") as (_ & _ & Hc & _).
  pose proof (convert_temperature_defaults_to_celsius 20.55 "rankine") as (_ & _ & Hr & _).
  split; [|split; [|split]].
  - rewrite Hf by reflexivity. vm_compute. reflexivity.
  - rewrite Hk by reflexivity. vm_compute. reflexivity.
  - rewrite Hc by discriminate. vm_compute. reflexivity.
  - rewrite Hr by discriminate. vm_compute. reflexivity.
Defined.

End ConversionClaims.

Section CardinalClaims.
Import Py Meteo Reference.

Lemma cardinal_agrees_all :
  forallb cardinal_agrees (map Z.of_nat (seq 0 360)) = true.
Proof. vm_compute. reflexivity. Qed.

Lemma cardinal_agrees_at (degrees : Z) :
  0 <= degrees <= 359 -> cardinal_agrees degrees = true.
Proof.
  intros Hd.
  pose proof (proj1 (forallb_forall _ _) cardinal_agrees_all degrees) as Hall.
  apply Hall. apply in_map_iff. exists (Z.to_nat degrees). split; [lia|].
  apply in_seq. lia.
Qed.

(** C9 (cardinal direction).  For every whole number of degrees from 0
    to 359, [cardinal_direction] returns the label of the 16-entry table
    at index [round(degrees / 22.5) mod 16], the rounding taken in exact
    arithmetic; that compass point is within 11.25 degrees of the
    direction; at the wrap-around, from 349 degrees on, the label is
    ["N"].  In particular 0 and 354 give ["N"], 90 gives ["E"] and 180
    gives ["S"]. *)
Theorem cardinal_direction_sectors (degrees : Z) :
  0 <= degrees <= 359 ->
  (exists label,
     directions !! Z.to_nat (exact_sector degrees mod 16) = Some label /\
     cardinal_direction (float_of_Z degrees) = Ret label) /\
  Z.abs (2 * degrees - 45 * exact_sector degrees) <= 22 /\
  (349 <= degrees -> cardinal_direction (float_of_Z degrees) = Ret "N"%string) /\
  cardinal_direction 0 = Ret "N"%string /\
  cardinal_direction 354 = Ret "N"%string /\
  cardinal_direction 90 = Ret "E"%string /\
  cardinal_direction 180 = Ret "S"%string.
Proof.
  intros Hd. pose proof (cardinal_agrees_at degrees Hd) as Hok.
  unfold cardinal_agrees in Hok.
  destruct (cardinal_direction (float_of_Z degrees)) as [label|e]; [|discriminate].
  destruct (directions !! Z.to_nat (exact_sector degrees mod 16)) as [expected|];
    [|discriminate].
  apply andb_prop in Hok as [Hok Hwrap]. apply andb_prop in Hok as [Hlab Hnear].
  apply String.eqb_eq in Hlab. subst expected.
  split; [now exists label|].
  split; [now apply Z.leb_le|].
  split.
  - intros Hw. apply Z.leb_le in Hw. rewrite Hw in Hwrap.
    apply String.eqb_eq in Hwrap. now subst label.
  - repeat split; vm_compute; reflexivity.
Qed.

(** The theorem at 354 degrees. *)
Lemma cardinal_direction_sectors_witness :
  0 <= 354 <= 359 /\
  cardinal_direction (float_of_Z 354) = Ret "N"%string.
Proof.
  assert (Hd : 0 <= 354 <= 359) by lia.
  split; [exact Hd|].
  pose proof (cardinal_direction_sectors 354 Hd) as (_ & _ & Hwrap & _).
  apply Hwrap. lia.
Defined.

End CardinalClaims.

(* ===================================================================== *)
(** * The settings store *)
(* ===================================================================== *)

Section StoreFacts.
Import Py Store Reference.

Lemma string_of_uint_digits (d : Decimal.uint) :
  all_digits (NilEmpty.string_of_uint d) = true.
Proof. induction d; simpl; auto. Qed.

Lemma is_digit_not_space (c : ascii) : is_digit c = true -> is_space c = false.
Proof.
  destruct c as [[] [] [] [] [] [] [] []]; vm_compute; congruence.
Qed.

Lemma lstrip_digits (s : string) : all_digits s = true -> lstrip s = s.
Proof.
  destruct s as [|c r]; simpl; [reflexivity|].
  intros [Hc _]%andb_prop. now rewrite (is_digit_not_space c Hc).
Qed.

Lemma rstrip_digits (s : string) : all_digits s = true -> rstrip s = s.
Proof.
  induction s as [|c r IH]; simpl; [reflexivity|].
  intros [Hc Hr]%andb_prop. rewrite (IH Hr), (is_digit_not_space c Hc).
  now destruct r.
Qed.

Lemma int_digits_digits (s : string) (prev : bool) :
  all_digits s = true -> (prev = true \/ s <> EmptyString) ->
  int_digits prev s = Some s.
Proof.
  revert prev. induction s as [|c r IH]; simpl; intros prev Hs Hp.
  - destruct Hp as [->|Hp]; [reflexivity|congruence].
  - apply andb_prop in Hs as [Hc Hr]. rewrite Hc.
    rewrite (IH true Hr) by now left. reflexivity.
Qed.

Lemma int_unsigned_digits (d : Decimal.uint) :
  d <> Decimal.Nil ->
  int_unsigned (NilEmpty.string_of_uint d) = Ret (Z.of_uint d).
Proof.
  intros Hd. unfold int_unsigned.
  rewrite int_digits_digits.
  - now rewrite NilEmpty.usu.
  - apply string_of_uint_digits.
  - right. destruct d; simpl; congruence.
Qed.

Lemma to_uint_nonnil (p : positive) : Pos.to_uint p <> Decimal.Nil.
Proof.
  intros Hp. pose proof (DecimalPos.Unsigned.of_to p) as Hof.
  rewrite Hp in Hof. discriminate.
Qed.

Lemma head_digit_not_sign (d : Decimal.uint) :
  d <> Decimal.Nil ->
  exists c r, NilEmpty.string_of_uint d = String c r /\ is_digit c = true.
Proof.
  intros Hd. destruct d; simpl; try congruence; eexists _, _; split; reflexivity.
Qed.

Lemma py_int_of_string_unsigned (d : Decimal.uint) :
  d <> Decimal.Nil ->
  py_int_of_string (NilEmpty.string_of_uint d) = Ret (Z.of_uint d).
Proof.
  intros Hd. unfold py_int_of_string, strip.
  rewrite lstrip_digits, rstrip_digits by apply string_of_uint_digits.
  rewrite <- (int_unsigned_digits d Hd).
  destruct (head_digit_not_sign d Hd) as (c & r & -> & Hc).
  destruct c as [[] [] [] [] [] [] [] []]; try discriminate Hc; reflexivity.
Qed.

Lemma py_int_of_string_negative (d : Decimal.uint) :
  d <> Decimal.Nil ->
  py_int_of_string (String "-" (NilEmpty.string_of_uint d)) = Ret (- Z.of_uint d).
Proof.
  intros Hd. unfold py_int_of_string, strip.
  change (lstrip (String "-" ?s)) with (String "-" s).
  assert (Hr : rstrip (String "-" (NilEmpty.string_of_uint d))
               = String "-" (NilEmpty.string_of_uint d)).
  { simpl. rewrite rstrip_digits by apply string_of_uint_digits.
    destruct (head_digit_not_sign d Hd) as (c & r & -> & _). reflexivity. }
  rewrite Hr. rewrite (int_unsigned_digits d Hd). reflexivity.
Qed.

(** [int(str(n)) == n] *)
Lemma py_int_of_string_str (n : Z) : py_int_of_string (py_str n) = Ret n.
Proof.
  unfold py_str. pose proof (DecimalZ.of_to n) as Hn.
  destruct n as [|p|p]; [reflexivity| |];
    pose proof (to_uint_nonnil p) as Hp;
    unfold Z.to_int, Z.of_int in *;
    unfold NilZero.string_of_int, NilZero.string_of_uint.
  - rewrite <- Hn. rewrite <- (py_int_of_string_unsigned _ Hp).
    now destruct (Pos.to_uint p).
  - rewrite <- Hn. rewrite <- (py_int_of_string_negative _ Hp).
    now destruct (Pos.to_uint p).
Qed.

#[local] Instance py_str_inj : Inj (=) (=) py_str.
Proof.
  intros n1 n2 Hs.
  pose proof (py_int_of_string_str n1) as H1. rewrite Hs in H1.
  rewrite py_int_of_string_str in H1. congruence.
Qed.

Lemma str_keys_fold (l : list (Z * record)) (acc : gmap string record) :
  foldl (fun acc '(k, v) => <[py_str k := v]> acc) acc l
  = list_to_map (reverse (prod_map py_str id <$> l)) ∪ acc.
Proof.
  revert acc. induction l as [|[k v] l IH]; intros acc; simpl.
  - now rewrite (left_id ∅ (∪)).
  - rewrite IH, reverse_cons, list_to_map_app. simpl.
    rewrite insert_empty, <- (assoc (∪)), <- insert_union_singleton_l.
    reflexivity.
Qed.

Lemma int_keys_str (l : list (Z * record)) (acc : settings_map) :
  int_keys (prod_map py_str id <$> l) acc = Ret (list_to_map (reverse l) ∪ acc).
Proof.
  revert acc. induction l as [|[k v] l IH]; intros acc; simpl.
  - now rewrite (left_id ∅ (∪)).
  - rewrite py_int_of_string_str. simpl.
    rewrite IH, reverse_cons, list_to_map_app. simpl.
    rewrite insert_empty, <- (assoc (∪)), <- insert_union_singleton_l.
    reflexivity.
Qed.

Lemma perm_fmap_inv {A B : Type} (f : A -> B) (l : list A) (k : list B) :
  k ≡ₚ f <$> l -> exists l', k = f <$> l' /\ l' ≡ₚ l.
Proof.
  intros Hp.
  destruct (Permutation_map_inv f l Hp) as (l' & -> & Hl').
  exists l'. split; [reflexivity|now symmetry].
Qed.

Lemma NoDup_str_keys (l : list (Z * record)) :
  NoDup (l.*1) -> NoDup ((prod_map py_str id <$> l).*1).
Proof.
  intros Hl.
  assert (Hk : (prod_map py_str id <$> l).*1 = py_str <$> l.*1).
  { rewrite <- !list_fmap_compose. apply list_fmap_ext.
    intros i [k v] _. reflexivity. }
  rewrite Hk. now apply (NoDup_fmap_2 py_str).
Qed.

(** The dictionary handed to [json.dump] holds, under [str(k)], the record
    that [user_settings] holds under [k]. *)
Lemma dump_settings_list (m : settings_map) :
  dump_settings m = list_to_map (prod_map py_str id <$> map_to_list m).
Proof.
  unfold dump_settings, str_keys. rewrite str_keys_fold, (right_id ∅ (∪)).
  apply list_to_map_proper.
  - rewrite reverse_Permutation. apply NoDup_str_keys, NoDup_fst_map_to_list.
  - apply reverse_Permutation.
Qed.

Lemma dump_settings_lookup (m : settings_map) (k : Z) :
  dump_settings m !! py_str k = m !! k.
Proof.
  rewrite dump_settings_list.
  change (list_to_map (prod_map py_str id <$> map_to_list m))
    with (kmap (M1 := gmap Z) (M2 := gmap string) py_str m).
  apply (lookup_kmap py_str).
Qed.

Lemma loaded_dump (m : settings_map) :
  loaded_settings (JsonFile (dump_settings m)) = m.
Proof.
  unfold loaded_settings, load_body.
  assert (Hnd : NoDup ((prod_map py_str id <$> map_to_list m).*1))
    by apply NoDup_str_keys, NoDup_fst_map_to_list.
  pose proof (map_to_list_to_map (M := gmap string) _ Hnd) as Hperm.
  rewrite <- dump_settings_list in Hperm.
  apply perm_fmap_inv in Hperm as (l' & -> & Hl').
  rewrite int_keys_str, (right_id ∅ (∪)).
  transitivity (list_to_map (M := gmap Z record) (map_to_list m));
    [|apply list_to_map_to_list].
  apply list_to_map_proper.
  - rewrite reverse_Permutation, Hl'. apply NoDup_fst_map_to_list.
  - now rewrite reverse_Permutation.
Qed.

End StoreFacts.

(* ===================================================================== *)
(** * The caches *)
(* ===================================================================== *)

Section CacheFacts.
Import Py Store Bot Reference.
Variable E : env.

Lemma get_weather_unfold (clk : clock) (city : string) (w : world) :
  get_weather E clk city w =
    match weather_hit clk w city with
    | Some cached_data => (Ret (Some cached_data), w)
    | None =>
        match http_weather E (trace w) city with
        | Some result =>
            (Ret (Some result),
             set_weather_cache (<[lower city := (result, now clk)]> (weather_cache w))
               (add_event (EvHttpWeather city) w))
        | None => (Ret None, add_event (EvHttpWeather city) w)
        end
    end.
Proof.
  unfold get_weather, weather_hit, mbind, get, call, modify, ret.
  destruct (weather_cache w !! lower city) as [[d ts]|]; simpl.
  - destruct (now clk - ts <? WEATHER_CACHE_TTL); simpl; [reflexivity|].
    now destruct (http_weather E (trace w) city).
  - now destruct (http_weather E (trace w) city).
Qed.

Lemma get_nasa_image_unfold (clk : clock) (w : world) :
  get_nasa_image E clk w =
    match nasa_hit clk w with
    | Some cached_data => (Ret (Some cached_data), w)
    | None =>
        match http_nasa E (trace w) with
        | Some result =>
            (Ret (Some result),
             set_nasa_cache (Some (result, now clk)) (add_event EvHttpNasa w))
        | None => (Ret None, add_event EvHttpNasa w)
        end
    end.
Proof.
  unfold get_nasa_image, nasa_hit, mbind, get, call, modify, ret.
  destruct (nasa_cache w) as [[d ts]|]; simpl.
  - destruct (now clk - ts <? NASA_CACHE_TTL); simpl; [reflexivity|].
    now destruct (http_nasa E (trace w)).
  - now destruct (http_nasa E (trace w)).
Qed.

Lemma weather_hit_fresh (clk : clock) (w : world) (city : string) v ts :
  weather_cache w !! lower city = Some (v, ts) ->
  now clk - ts < 5 * 60 * 1000000 ->
  weather_hit clk w city = Some v.
Proof.
  intros Hc Hage. unfold weather_hit. rewrite Hc.
  now rewrite (proj2 (Z.ltb_lt _ WEATHER_CACHE_TTL) Hage).
Qed.

Lemma weather_hit_miss (clk : clock) (w : world) (city : string) :
  (forall v ts, weather_cache w !! lower city = Some (v, ts) ->
                5 * 60 * 1000000 <= now clk - ts) ->
  weather_hit clk w city = None.
Proof.
  intros Hst. unfold weather_hit.
  destruct (weather_cache w !! lower city) as [[v ts]|]; [|reflexivity].
  specialize (Hst v ts eq_refl).
  now rewrite (proj2 (Z.ltb_ge _ WEATHER_CACHE_TTL) Hst).
Qed.

Lemma nasa_hit_fresh (clk : clock) (w : world) v ts :
  nasa_cache w = Some (v, ts) ->
  now clk - ts < 12 * 3600 * 1000000 ->
  nasa_hit clk w = Some v.
Proof.
  intros Hc Hage. unfold nasa_hit. rewrite Hc.
  now rewrite (proj2 (Z.ltb_lt _ NASA_CACHE_TTL) Hage).
Qed.

Lemma nasa_hit_miss (clk : clock) (w : world) :
  (forall v ts, nasa_cache w = Some (v, ts) ->
                12 * 3600 * 1000000 <= now clk - ts) ->
  nasa_hit clk w = None.
Proof.
  intros Hst. unfold nasa_hit.
  destruct (nasa_cache w) as [[v ts]|]; [|reflexivity].
  specialize (Hst v ts eq_refl).
  now rewrite (proj2 (Z.ltb_ge _ NASA_CACHE_TTL) Hst).
Qed.


End CacheFacts.

Section CacheWitness.
Import Py Store Bot Reference.


End CacheWitness.

(* ===================================================================== *)
(** * The daily report and the scheduler sweep *)
(* ===================================================================== *)

Section SweepFacts.
Import Py Store Bot Reference.
Variable E : env.
Context `{Libm}.
Local Open Scope bot_scope.

Lemma fetched_app (t1 t2 : list event) :
  fetched (t1 ++ t2) = fetched t1 ++ fetched t2.
Proof. unfold fetched. apply omap_app. Qed.

Lemma stable_ret {A : Type} (a : A) : stable [] (ret a).
Proof.
  intros w. simpl. repeat split. exists []. now rewrite app_nil_r.
Qed.

Lemma stable_lift {A : Type} (r : result A) : stable [] (lift r).
Proof.
  intros w. simpl. repeat split. exists []. now rewrite app_nil_r.
Qed.

Lemma stable_get : stable [] get.
Proof.
  intros w. simpl. repeat split. exists []. now rewrite app_nil_r.
Qed.

Lemma stable_bind {A B : Type} (us : list Z) (c : M A) (k : A -> M B) :
  stable us c -> (forall a, stable [] (k a)) -> stable us (mbind c k).
Proof.
  intros Hc Hk w. unfold mbind.
  destruct (Hc w) as (Hu & Hd & t & Ht & Hf).
  destruct (c w) as [[a|e] w1]; simpl in *.
  - destruct (Hk a w1) as (Hu' & Hd' & t' & Ht' & Hf').
    split; [congruence|]. split; [congruence|].
    exists (t ++ t'). rewrite Ht', Ht, app_assoc. split; [reflexivity|].
    now rewrite fetched_app, Hf, Hf', app_nil_r.
  - repeat split; try assumption. now exists t.
Qed.

Lemma stable_try_catch {A : Type} (us : list Z) (c : M A) (h : exn -> M A) :
  stable us c -> (forall e, stable [] (h e)) -> stable us (try_catch c h).
Proof.
  intros Hc Hh w. unfold try_catch.
  destruct (Hc w) as (Hu & Hd & t & Ht & Hf).
  destruct (c w) as [[a|e] w1]; simpl in *.
  - repeat split; try assumption. now exists t.
  - destruct (Hh e w1) as (Hu' & Hd' & t' & Ht' & Hf').
    split; [congruence|]. split; [congruence|].
    exists (t ++ t'). rewrite Ht', Ht, app_assoc. split; [reflexivity|].
    now rewrite fetched_app, Hf, Hf', app_nil_r.
Qed.

Lemma stable_call {A : Type} (ev : event) (answer : list event -> A) :
  fetched [ev] = [] -> stable [] (call ev answer).
Proof. intros Hev w. simpl. repeat split. now exists [ev]. Qed.

Lemma stable_call_raising (ev : event) (answer : list event -> option exn) :
  stable (fetched [ev]) (call_raising ev answer).
Proof. intros w. simpl. repeat split. now exists [ev]. Qed.

Lemma stable_get_weather (clk : clock) (city : string) :
  stable [] (get_weather E clk city).
Proof.
  intros w. rewrite get_weather_unfold.
  destruct (weather_hit clk w city).
  - simpl. repeat split. exists []. now rewrite app_nil_r.
  - destruct (http_weather E (trace w) city); simpl; repeat split;
      now exists [EvHttpWeather city].
Qed.

Lemma stable_get_nasa_image (clk : clock) :
  stable [] (get_nasa_image E clk).
Proof.
  intros w. rewrite get_nasa_image_unfold.
  destruct (nasa_hit clk w).
  - simpl. repeat split. exists []. now rewrite app_nil_r.
  - destruct (http_nasa E (trace w)); simpl; repeat split;
      now exists [EvHttpNasa].
Qed.

Lemma stable_send (user_id : Z) (msg : message) : stable [] (send E user_id msg).
Proof. apply (stable_call_raising (EvSend user_id msg)). Qed.

(** [send_daily_report] starts one report, for its user. *)
Lemma stable_send_daily_report (clk : clock) (user_id : Z) (settings : record) :
  stable [user_id] (send_daily_report E clk user_id settings).
Proof.
  unfold send_daily_report.
  apply stable_try_catch; [|intros e; apply stable_ret].
  apply stable_bind; [apply (stable_call_raising (EvFetchUser user_id))|intros _].
  apply stable_bind; [apply stable_lift|intros city_v].
  apply stable_bind; [apply stable_lift|intros country].
  apply stable_bind; [apply stable_lift|intros city].
  apply stable_bind; [apply stable_get_weather|intros [data|]];
    [|apply stable_ret].
  apply stable_bind; [apply stable_lift|intros r].
  apply stable_bind; [apply stable_send|intros _].
  apply stable_bind; [apply stable_get_nasa_image|intros [[[url title] expl]|]];
    [apply stable_send|apply stable_ret].
Qed.

(** A handler that returns makes the whole statement return. *)
Lemma try_catch_returns (c : M unit) (w : world) :
  fst (try_catch c (fun _ => ret tt) w) = Ret tt.
Proof.
  unfold try_catch. destruct (c w) as [[[]|e] w1]; reflexivity.
Qed.

Lemma send_daily_report_returns (clk : clock) (user_id : Z) (settings : record) (w : world) :
  fst (send_daily_report E clk user_id settings w) = Ret tt.
Proof. apply try_catch_returns. Qed.

Lemma check_user_returns (clk : clock) (user_id : Z) (settings : record) (w : world) :
  fst (check_user E clk user_id settings w) = Ret tt.
Proof. apply try_catch_returns. Qed.

(** One user in a sweep: a report is started exactly when the test of
    that user succeeds; nothing else about the world decides it. *)
Lemma stable_check_user (clk : clock) (user_id : Z) (settings : record) :
  stable (due_users clk [(user_id, settings)])
         (check_user E clk user_id settings).
Proof.
  unfold check_user, due_users. simpl.
  apply stable_try_catch; [|intros e; apply stable_ret].
  intros w. unfold mbind, lift.
  destruct (report_due clk settings) as [[|]|e]; simpl.
  - apply stable_send_daily_report.
  - apply (stable_ret tt).
  - repeat split. exists []. now rewrite app_nil_r.
Qed.

Lemma due_users_cons (clk : clock) (user_id : Z) (settings : record)
    (items : list (Z * record)) :
  due_users clk ((user_id, settings) :: items)
  = due_users clk [(user_id, settings)] ++ due_users clk items.
Proof.
  unfold due_users. simpl.
  now destruct (report_due clk settings) as [[|]|e].
Qed.

(** The loop of a sweep over any list of users. *)
Lemma for_each_check_user (clk : clock) (items : list (Z * record)) (w : world) :
  let c := for_each items (fun '(user_id, settings) => check_user E clk user_id settings) in
  fst (c w) = Ret tt /\
  user_settings (snd (c w)) = user_settings w /\
  db_file (snd (c w)) = db_file w /\
  exists t, trace (snd (c w)) = trace w ++ t /\ fetched t = due_users clk items.
Proof.
  revert w. induction items as [|[user_id settings] items IH]; intros w.
  - simpl. repeat split. exists []. now rewrite app_nil_r.
  - rewrite due_users_cons. cbn [for_each]. unfold mbind.
    pose proof (check_user_returns clk user_id settings w) as Hr.
    destruct (stable_check_user clk user_id settings w) as (Hu & Hd & t & Ht & Hf).
    destruct (check_user E clk user_id settings w) as [r w1].
    cbn [fst snd] in *. subst r.
    destruct (IH w1) as (Hr' & Hu' & Hd' & t' & Ht' & Hf').
    split; [exact Hr'|]. split; [congruence|]. split; [congruence|].
    exists (t ++ t'). rewrite Ht', Ht, app_assoc. split; [reflexivity|].
    now rewrite fetched_app, Hf, Hf'.
Qed.

Lemma check_and_send_reports_spec (clk : clock) (w : world) :
  let c := check_and_send_reports E clk in
  fst (c w) = Ret tt /\
  user_settings (snd (c w)) = user_settings w /\
  db_file (snd (c w)) = db_file w /\
  exists t, trace (snd (c w)) = trace w ++ t /\
            fetched t = due_users clk (map_to_list (user_settings w)).
Proof.
  unfold check_and_send_reports, mbind, get. simpl.
  apply for_each_check_user.
Qed.

Lemma elem_of_due_users (clk : clock) (m : settings_map) (user_id : Z) :
  user_id ∈ due_users clk (map_to_list m) <->
  exists settings, m !! user_id = Some settings /\ report_due clk settings = Ret true.
Proof.
  unfold due_users. rewrite list_elem_of_omap. split.
  - intros ([u s] & Hin & Hdue). apply elem_of_map_to_list in Hin.
    destruct (report_due clk s) as [[|]|e] eqn:Hs; try discriminate.
    injection Hdue as <-. exists s. split; [exact Hin|exact Hs].
  - intros (s & Hs & Hdue). exists (user_id, s).
    split; [now apply elem_of_map_to_list|]. now rewrite Hdue.
Qed.

(** A user with a record counts once in a sweep when due, else not at all. *)
Lemma count_due_users (clk : clock) (items : list (Z * record))
    (user_id : Z) (settings : record) :
  NoDup (items.*1) -> (user_id, settings) ∈ items ->
  length (filter (fun u => u = user_id) (due_users clk items))
  = match report_due clk settings with Ret true => 1%nat | _ => 0%nat end.
Proof.
  assert (Habsent : forall l : list (Z * record), user_id ∉ l.*1 ->
            filter (fun u => u = user_id) (due_users clk l) = []).
  { induction l as [|[u s] l IHl]; intros Hni; [reflexivity|].
    rewrite due_users_cons, filter_app. rewrite fmap_cons, not_elem_of_cons in Hni.
    destruct Hni as [Hne Hni]. rewrite (IHl Hni), app_nil_r.
    unfold due_users. simpl. destruct (report_due clk s) as [[|]|e]; try reflexivity.
    simpl. rewrite filter_cons_False by (simpl in *; congruence). reflexivity. }
  induction items as [|[u s] items IH]; intros Hnd Hin.
  - now apply elem_of_nil in Hin.
  - rewrite fmap_cons in Hnd. apply NoDup_cons in Hnd as [Hni Hnd].
    rewrite due_users_cons, filter_app, length_app.
    apply elem_of_cons in Hin as [Heq|Hin].
    + injection Heq as <- <-. rewrite (Habsent items Hni). simpl.
      unfold due_users. simpl.
      destruct (report_due clk settings) as [[|]|e]; try reflexivity.
      simpl. rewrite filter_cons_True by reflexivity. reflexivity.
    + rewrite (IH Hnd Hin).
      assert (Hne : u <> user_id).
      { intros ->. apply Hni. apply list_elem_of_fmap. now exists (user_id, settings). }
      unfold due_users at 1. simpl.
      destruct (report_due clk s) as [[|]|e]; try reflexivity.
      simpl. rewrite filter_cons_False by exact Hne. reflexivity.
Qed.

End SweepFacts.

Section SweepClaims.
Import Py Store Bot Reference.
Context `{Libm}.


End SweepClaims.

Section SchedulerFacts.
Import Py Store Bot Reference.
Variable E : env.
Context `{Libm}.

Lemma reports_for_app (user_id : Z) (t1 t2 : list event) :
  reports_for user_id (t1 ++ t2) = (reports_for user_id t1 + reports_for user_id t2)%nat.
Proof.
  unfold reports_for. now rewrite fetched_app, filter_app, length_app.
Qed.

(** A day of sweeps: the reports started for one user are counted by the
    ticks at which the user's test succeeds. *)
Lemma scheduler_reports (ticks : list clock) (w : world)
    (user_id : Z) (settings : record) :
  user_settings w !! user_id = Some settings ->
  fst (scheduler E ticks w) = Ret tt /\
  user_settings (snd (scheduler E ticks w)) = user_settings w /\
  exists t, trace (snd (scheduler E ticks w)) = trace w ++ t /\
            reports_for user_id t = count_due settings ticks.
Proof.
  revert w. induction ticks as [|clk ticks IH]; intros w Hs.
  - simpl. repeat split. exists []. now rewrite app_nil_r.
  - unfold scheduler. cbn [for_each count_due]. unfold mbind.
    destruct (check_and_send_reports_spec E clk w) as (Hr & Hu & _ & t & Ht & Hf).
    destruct (check_and_send_reports E clk w) as [r w1].
    cbn [fst snd] in *. subst r.
    assert (Hs1 : user_settings w1 !! user_id = Some settings) by now rewrite Hu.
    destruct (IH w1 Hs1) as (Hr' & Hu' & t' & Ht' & Hc').
    unfold scheduler in Hr', Hu', Ht'.
    split; [exact Hr'|]. split; [congruence|].
    exists (t ++ t'). rewrite Ht', Ht, app_assoc. split; [reflexivity|].
    rewrite reports_for_app, Hc'. unfold reports_for at 1. rewrite Hf.
    rewrite (count_due_users clk _ user_id settings);
      [|apply NoDup_fst_map_to_list|now apply elem_of_map_to_list].
    now destruct (report_due clk settings) as [[|]|e].
Qed.

(** Inside the [k]-th slot of a day, the hour is [k / 12] and the minute
    is below 5 exactly in the first slot of the hour. *)
Lemma window_slot (d k r rh : Z) :
  0 <= k < 288 ->
  86400 * d + 300 * k <= r < 86400 * d + 300 * (k + 1) ->
  (hour_of r =? rh) && (minute_of r <? 5) = (k =? 12 * rh).
Proof.
  intros Hk Hr. unfold hour_of, minute_of.
  destruct (Z.eqb_spec k (12 * rh)) as [Heq|Hne].
  - apply andb_true_intro. split; [apply Z.eqb_eq|apply Z.ltb_lt];
      Z.div_mod_to_equations; lia.
  - apply andb_false_iff.
    destruct (Z.eqb_spec ((r / 3600) mod 24) rh) as [Hh|Hh]; [right|now left].
    apply Z.ltb_ge. Z.div_mod_to_equations. lia.
Qed.

Lemma report_due_reading (clk : clock) (settings : record) (tz : string) (r rh : Z) :
  settings !! "tz"%string = Some (VStr tz) ->
  get_default settings "report_hour" (VInt 8) = VInt rh ->
  zone_now clk tz = Ret r ->
  report_due clk settings = Ret ((hour_of r =? rh) && (minute_of r <? 5)).
Proof.
  intros Htz Hrh Hr. unfold report_due, getitem.
  rewrite Htz. simpl. rewrite Hr. simpl. now rewrite Hrh.
Qed.

Lemma count_due_slots (settings : record) (tz : string) (rh d : Z)
    (ticks : list clock) (ks : list Z) :
  settings !! "tz"%string = Some (VStr tz) ->
  get_default settings "report_hour" (VInt 8) = VInt rh ->
  Forall2 (in_slot tz d) ticks ks ->
  Forall (fun k => 0 <= k < 288) ks ->
  count_due settings ticks = length (filter (fun k => k = 12 * rh) ks).
Proof.
  intros Htz Hrh Hslots. induction Hslots as [|clk k ticks ks Hslot Hrest IH];
    intros Hks; [reflexivity|].
  apply Forall_cons in Hks as [Hk Hks].
  destruct Hslot as (r & Hr & Hbounds).
  cbn [count_due].
  rewrite (report_due_reading clk settings tz r rh Htz Hrh Hr).
  rewrite (window_slot d k r rh Hk Hbounds), (IH Hks).
  destruct (Z.eqb_spec k (12 * rh)) as [Heq|Hne].
  - now rewrite filter_cons_True.
  - now rewrite filter_cons_False.
Qed.

Lemma filter_eq_absent (x : Z) (ks : list Z) :
  x ∉ ks -> length (filter (fun k => k = x) ks) = 0%nat.
Proof.
  induction ks as [|k ks IH]; intros Hni; [reflexivity|].
  apply not_elem_of_cons in Hni as [Hne Hni].
  rewrite filter_cons_False by congruence. now apply IH.
Qed.

Lemma filter_eq_NoDup (x : Z) (ks : list Z) :
  NoDup ks -> (length (filter (fun k => k = x) ks) <= 1)%nat.
Proof.
  induction 1 as [|k ks Hni Hnd IH]; [simpl; lia|].
  destruct (decide (k = x)) as [->|Hne].
  - rewrite filter_cons_True by reflexivity.
    simpl. rewrite (filter_eq_absent x ks Hni). lia.
  - now rewrite filter_cons_False.
Qed.

Lemma filter_eq_seq (n len : nat) (x : Z) :
  (n <= Z.to_nat x < n + len)%nat -> 0 <= x ->
  length (filter (fun k => k = x) (map Z.of_nat (seq n len))) = 1%nat.
Proof.
  revert n. induction len as [|len IH]; intros n Hx Hpos; [lia|].
  cbn [seq map].
  destruct (decide (Z.of_nat n = x)) as [Heq|Hne].
  - rewrite filter_cons_True by exact Heq. cbn [length].
    rewrite filter_eq_absent; [reflexivity|].
    intros Hin. apply list_elem_of_In, in_map_iff in Hin as (j & Hj & Hin).
    apply in_seq in Hin. lia.
  - rewrite filter_cons_False by exact Hne. apply IH; lia.
Qed.

End SchedulerFacts.

Section SchedulerClaims.
Import Py Store Bot Reference.
Context `{Libm}.


Lemma day_ticks_slots (phase : Z) :
  0 <= phase < 300 ->
  Forall2 (in_slot "Europe/Paris" 0) (day_ticks phase) day_slots.
Proof.
  intros Hp. unfold day_ticks. generalize day_slots as l.
  induction l as [|k l IH]; constructor; [|exact IH].
  exists (300 * k + phase). split.
  - unfold clock_at. cbn [zone_now].
    change (String.eqb "Europe/Paris" "Europe/Paris") with true. cbn iota.
    rewrite Z.div_mul by lia. f_equal. lia.
  - lia.
Qed.

Lemma day_slots_bounds : Forall (fun k => 0 <= k < 288) day_slots.
Proof.
  apply Forall_forall. intros k Hin.
  apply list_elem_of_In, in_map_iff in Hin as (j & <- & Hin).
  apply in_seq in Hin. lia.
Qed.

End SchedulerClaims.

Section SchedulerWitness.
Import Py Store Bot Reference.


End SchedulerWitness.

(* ===================================================================== *)
(** * The commands that write settings *)
(* ===================================================================== *)

Section CommandClaims.
Import Py Store Bot Reference.
Variable E : env.

Lemma station_record_preferences (result : weather) (tz_str : string) :
  station_record result tz_str !! "temp_unit"%string = Some (VStr "celsius") /\
  station_record result tz_str !! "report_hour"%string = Some (VInt 8).
Proof. split; reflexivity. Qed.


(** C5 (settings round trip).  When the file can be written,
    [save_user_settings] leaves in it the dictionary keyed by [str(k)];
    [load_user_settings], run by any process that finds this file, makes
    [user_settings] equal to the saved mapping: the same integer keys
    with the same records. *)
Theorem settings_round_trip (w w2 : world) :
  write_ok E (trace w) = true ->
  let w1 := snd (save_user_settings E w) in
  db_file w2 = db_file w1 ->
  db_file w1 = JsonFile (dump_settings (user_settings w)) /\
  (forall k, dump_settings (user_settings w) !! py_str k = user_settings w !! k) /\
  user_settings (snd (load_user_settings w2)) = user_settings w /\
  (forall k, user_settings (snd (load_user_settings w2)) !! k = user_settings w !! k).
Proof.
  intros Hok w1 Hfile.
  assert (Hf1 : db_file w1 = JsonFile (dump_settings (user_settings w))).
  { subst w1. unfold save_user_settings, try_catch, mbind, get, write_db.
    now rewrite Hok. }
  assert (Hload : user_settings (snd (load_user_settings w2)) = user_settings w).
  { unfold load_user_settings, modify. cbn [snd user_settings set_user_settings].
    rewrite Hfile, Hf1. apply loaded_dump. }
  split; [exact Hf1|]. split; [apply dump_settings_lookup|].
  split; [exact Hload|]. intros k. now rewrite Hload.
Qed.

(** What [settings] does with an hour outside 0..23: nothing is saved,
    and the record is as the unit choice, if any, left it. *)
Lemma settings_hour_out_of_range (w : world) (user_id : Z) (old : record)
    (temperature_unit : option unit_choice) (h : Z) :
  user_settings w !! user_id = Some old ->
  ~ 0 <= h <= 23 ->
  let w' := snd (settings E user_id temperature_unit (Some h) w) in
  db_file w' = db_file w /\
  (exists t, trace w' = trace w ++ t /\ forall data, EvWriteDb data ∉ t) /\
  user_settings w' =
    match temperature_unit with
    | Some c => <[user_id := <["temp_unit"%string := VStr (choice_value c)]> old]> (user_settings w)
    | None => user_settings w
    end.
Proof.
  intros Hold Hh w'.
  assert (Hbad : negb ((0 <=? h) && (h <=? 23)) = true).
  { apply negb_true_iff, andb_false_iff.
    destruct (Z.leb_spec 0 h); [|now left]. destruct (Z.leb_spec h 23); [lia|now right]. }
  set (w0 := match temperature_unit with
             | Some c => set_user_settings
                           (alter (insert "temp_unit"%string (VStr (choice_value c)))
                                  user_id (user_settings w)) w
             | None => w
             end).
  set (w1 := add_event (EvRespond ReportHourOutOfRange) w0).
  assert (Hrun : w' = match respond E (trace w0) ReportHourOutOfRange with
                      | None => w1
                      | Some _ => add_event (EvRespond SettingsError) w1
                      end).
  { subst w'. unfold settings, try_catch. unfold mbind at 1. cbn [get].
    rewrite Hold. unfold mbind at 1.
    destruct temperature_unit as [c|].
    - unfold mbind at 1. cbn [setitem modify]. fold w0. cbn [ret].
      rewrite Hbad. unfold reply, call_raising. fold w1.
      now destruct (respond E (trace w0) ReportHourOutOfRange).
    - cbn [ret]. rewrite Hbad. unfold reply, call_raising. fold w0 w1.
      now destruct (respond E (trace w0) ReportHourOutOfRange). }
  assert (Hd0 : db_file w0 = db_file w) by (subst w0; now destruct temperature_unit).
  assert (Ht0 : trace w0 = trace w) by (subst w0; now destruct temperature_unit).
  split; [|split].
  - rewrite Hrun. now destruct (respond E (trace w0) ReportHourOutOfRange).
  - rewrite Hrun.
    destruct (respond E (trace w0) ReportHourOutOfRange);
      cbn [trace add_event w1]; rewrite Ht0, <- ?app_assoc;
      (eexists; split; [reflexivity|]); intros data Hin;
      repeat (apply elem_of_cons in Hin as [Hin|Hin]; [discriminate|]);
      now apply elem_of_nil in Hin.
  - rewrite Hrun.
    assert (Hu0 : user_settings w0 =
                  match temperature_unit with
                  | Some c => <[user_id := <["temp_unit"%string := VStr (choice_value c)]> old]> (user_settings w)
                  | None => user_settings w
                  end).
    { subst w0. destruct temperature_unit as [c|]; [|reflexivity].
      cbn [user_settings set_user_settings].
      apply map_eq. intros k. destruct (decide (k = user_id)) as [->|Hne].
      - now rewrite lookup_alter_eq, lookup_insert_eq, Hold.
      - now rewrite lookup_alter_ne, lookup_insert_ne by congruence. }
    rewrite <- Hu0. now destruct (respond E (trace w0) ReportHourOutOfRange).
Qed.

End CommandClaims.

(* ===================================================================== *)
(** * The theorems on the sample data *)
(* ===================================================================== *)

Section Runs.
Import Py Meteo Store Bot Reference.

(** C3 at its failing input.  User 1 has unit ["celsius"]; the call
    [settings(temperature_unit=Fahrenheit, report_hour=24)] answers that
    the hour is out of range and writes no file, yet the stored record
    now has unit ["fahrenheit"]: the unit is assigned before the hour is
    checked. *)
Theorem settings_invalid_hour_keeps_unit_write :
  let w := registered_world in
  let w' := snd (settings sample_env 1 (Some Fahrenheit) (Some 24) w) in
  user_settings w !! 1 = Some paris_record /\
  paris_record !! "temp_unit"%string = Some (VStr "celsius") /\
  trace w' = [EvRespond ReportHourOutOfRange] /\
  db_file w' = db_file w /\
  user_settings w' !! 1
    = Some (<["temp_unit"%string := VStr "fahrenheit"]> paris_record) /\
  user_settings w' <> user_settings w.
Proof.
  intros w w'.
  repeat split; try (vm_compute; reflexivity).
  intros Heq.
  apply (f_equal (fun m : settings_map =>
                    m !! 1 ≫= (fun r : record => r !! "temp_unit"%string))) in Heq.
  vm_compute in Heq. discriminate.
Qed.

(** C5 on the sample data: user 1 saved and loaded by a fresh process. *)
Lemma settings_round_trip_witness :
  let w1 := snd (save_user_settings sample_env registered_world) in
  db_file w1 = JsonFile {[ "1"%string := paris_record ]} /\
  user_settings (snd (load_user_settings (set_db_file (db_file w1) empty_world)))
    = {[ 1 := paris_record ]}.
Proof.
  intros w1.
  destruct (settings_round_trip sample_env registered_world
              (set_db_file (db_file w1) empty_world) eq_refl eq_refl)
    as (Hfile & _ & Hload & _).
  split; [etransitivity; [exact Hfile|vm_compute; reflexivity]|exact Hload].
Defined.


(** C7 on two inputs: 20 degrees is below the threshold and comes back
    as it is; 35 degrees at 60 percent is above it. *)
Lemma heat_index_short_circuit_witness :
  calculate_heat_index 20 50 = Ret 20%float /\
  calculate_heat_index 35 60 = Ret 45.05%float.
Proof.
  pose proof (heat_index_short_circuit 20 50) as [Hlow _].
  pose proof (heat_index_short_circuit 35 60) as [_ Hhigh].
  split.
  - apply Hlow. reflexivity.
  - rewrite Hhigh by reflexivity. vm_compute. reflexivity.
Defined.


End Runs.

(* ===================================================================== *)
(** * Further properties: the settings file *)
(* ===================================================================== *)

Section StoreProperties.
Import Py Store Bot Reference.
#[local] Existing Instance py_str_inj.

Lemma int_keys_bad_key (items : list (string * record)) (acc : settings_map)
    (k : string) (r : record) :
  (k, r) ∈ items ->
  (forall n, py_int_of_string k <> Ret n) ->
  forall m, int_keys items acc <> Ret m.
Proof.
  revert acc. induction items as [|[k' r'] items IH]; intros acc Hin Hbad m.
  - now apply elem_of_nil in Hin.
  - simpl. destruct (py_int_of_string k') as [n|e] eqn:Hk'; simpl; [|discriminate].
    apply elem_of_cons in Hin as [Heq|Hin].
    + injection Heq as -> ->. now destruct (Hbad n).
    + now apply IH.
Qed.



(** The dictionary that [save_user_settings] writes has one entry per
    user and no other: the entries are exactly the records of
    [user_settings], each under the decimal string of its user id, and
    two users never share a key. *)
Theorem saved_file_keys (E : env) (w : world) :
  write_ok E (trace w) = true ->
  exists data,
    db_file (snd (save_user_settings E w)) = JsonFile data /\
    (forall s r,
       data !! s = Some r <->
       exists k, s = py_str k /\ user_settings w !! k = Some r) /\
    (forall k1 k2, py_str k1 = py_str k2 -> k1 = k2) /\
    size data = size (user_settings w).
Proof.
  intros Hok. exists (dump_settings (user_settings w)).
  split.
  { unfold save_user_settings, try_catch, mbind, get, write_db. now rewrite Hok. }
  rewrite dump_settings_list.
  change (list_to_map (prod_map py_str id <$> map_to_list (user_settings w)))
    with (kmap (M1 := gmap Z) (M2 := gmap string) py_str (user_settings w)).
  split; [intros s r; apply (lookup_kmap_Some py_str)|].
  split; [intros k1 k2; apply py_str_inj|].
  rewrite <- !length_map_to_list.
  rewrite (map_to_list_kmap py_str (user_settings w)). apply length_fmap.
Qed.

Lemma saved_file_keys_witness :
  exists data,
    db_file (snd (save_user_settings sample_env registered_world)) = JsonFile data /\
    data !! "1"%string = Some paris_record /\
    size data = 1%nat.
Proof.
  destruct (saved_file_keys sample_env registered_world eq_refl)
    as (data & Hfile & Hkeys & _ & Hsize).
  exists data. split; [exact Hfile|]. split.
  - apply Hkeys. exists 1. split; reflexivity.
  - rewrite Hsize. reflexivity.
Defined.

End StoreProperties.

(* ===================================================================== *)
(** * Further properties: classification and direction *)
(* ===================================================================== *)

Section ClassificationProperties.
Import Py Meteo Reference.

Lemma in_range (lo : Z) (n : nat) (x : Z) :
  lo <= x < lo + Z.of_nat n -> In x (range lo n).
Proof.
  intros Hx. unfold range. apply in_map_iff.
  exists (Z.to_nat (x - lo)). split; [lia|]. apply in_seq. lia.
Qed.

Lemma clouds_agree_all : forallb clouds_agree (range (-400) 907) = true.
Proof. vm_compute. reflexivity. Qed.

Lemma cardinal_wraps_all : forallb cardinal_wraps (range (-720) 1800) = true.
Proof. vm_compute. reflexivity. Qed.

(** On whole percentages, [classify_clouds_scientific] follows the okta
    bands: from 0 to 100 the code is SKC up to 6, FEW up to 31, SCT up to
    56, BKN up to 93 and OVC above, with the oktas the integer nearest to
    [pct / 12.5], between 0 and 8.  A percentage whose okta falls outside
    0..8 is reported as overcast with 8 oktas: every percentage from 107
    on, and also every negative one from -7 down. *)
Theorem classify_clouds_bands (pct : Z) :
  -400 <= pct <= 506 ->
  exists code desc oktas,
    classify_clouds_scientific (float_of_Z pct) = Ret (code, desc, oktas) /\
    0 <= oktas <= 8 /\
    (0 <= pct <= 100 ->
       code = cloud_band pct /\ oktas = div_half_even (2 * pct) 25) /\
    (pct <= -7 \/ 107 <= pct -> code = "OVC"%string /\ oktas = 8).
Proof.
  intros Hpct.
  pose proof (proj1 (forallb_forall _ _) clouds_agree_all pct
                (in_range (-400) 907 pct ltac:(lia))) as Hok.
  unfold clouds_agree in Hok.
  destruct (classify_clouds_scientific (float_of_Z pct)) as [[[code desc] oktas]|e];
    [|discriminate].
  exists code, desc, oktas. split; [reflexivity|].
  apply andb_prop in Hok as [Hok Hout]. apply andb_prop in Hok as [Hok Hin].
  apply andb_prop in Hok as [Hlo Hhi]. apply Z.leb_le in Hlo, Hhi.
  split; [lia|]. split.
  - intros [H0 H1]. apply Z.leb_le in H0, H1. rewrite H0, H1 in Hin.
    apply andb_prop in Hin as [Hcode Hokta].
    now apply String.eqb_eq in Hcode; apply Z.eqb_eq in Hokta.
  - intros Hfar.
    assert (Hb : (pct <=? -7) || (107 <=? pct) = true).
    { apply orb_true_iff. destruct Hfar; [left|right]; now apply Z.leb_le. }
    rewrite Hb in Hout. apply andb_prop in Hout as [Hcode Hokta].
    now apply String.eqb_eq in Hcode; apply Z.eqb_eq in Hokta.
Qed.

Lemma classify_clouds_bands_witness :
  -400 <= 50 <= 506 /\
  exists desc,
    classify_clouds_scientific (float_of_Z 50) = Ret ("SCT"%string, desc, 4).
Proof.
  assert (Hr : -400 <= 50 <= 506) by lia.
  split; [exact Hr|].
  destruct (classify_clouds_bands 50 Hr) as (code & desc & oktas & Hc & _ & Hin & _).
  destruct Hin as [-> ->]; [lia|]. exists desc. exact Hc.
Defined.

Lemma py_round_raises (x : float) (e : exn) :
  py_round x = Raise e -> e = ValueError \/ e = OverflowError.
Proof.
  unfold py_round. destruct (Prim2SF x); intros Hr; try discriminate;
    injection Hr as <-; auto.
Qed.

Lemma py_round_nan_quotient (x y : float) :
  is_nan x = true -> py_round (x / y) = Raise ValueError.
Proof.
  intros Hx. unfold py_round.
  rewrite FloatAxioms.div_spec, (is_nan_Prim2SF x Hx). reflexivity.
Qed.

Lemma classifications_row (oktas : Z) (row : string * string * Z) :
  classifications oktas = Some row -> snd row = oktas /\ 0 <= oktas <= 8.
Proof.
  destruct oktas as [|p|p]; [| |discriminate].
  - intros [= <-]. split; [reflexivity|lia].
  - do 4 (try destruct p as [p|p|]); try discriminate;
      intros [= <-]; split; try reflexivity; lia.
Qed.

(** Whatever the coverage, an answer of [classify_clouds_scientific] is a
    row of its table, with its own oktas between 0 and 8.  The function
    has no handler: it raises, [ValueError] or [OverflowError] and
    nothing else, when the coverage divided by 12.5 cannot be rounded;
    a NaN coverage always raises. *)
Theorem classify_clouds_table_row (cloud_pct : float) :
  match classify_clouds_scientific cloud_pct with
  | Ret row => classifications (snd row) = Some row /\ 0 <= snd row <= 8
  | Raise e => e = ValueError \/ e = OverflowError
  end /\
  (is_nan cloud_pct = true ->
   classify_clouds_scientific cloud_pct = Raise ValueError).
Proof.
  unfold classify_clouds_scientific.
  rewrite py_truediv_nonzero by reflexivity. cbn [bind]. split.
  - destruct (py_round (cloud_pct / 12.5)) as [oktas|e] eqn:Hr; cbn [bind].
    + destruct (classifications oktas) as [row|] eqn:Hrow; simpl.
      * destruct (classifications_row oktas row Hrow) as [Hs Hb].
        rewrite Hs. now split.
      * split; [reflexivity|lia].
    + simpl. exact (py_round_raises _ e Hr).
  - intros Hnan. now rewrite (py_round_nan_quotient _ _ Hnan).
Qed.

Lemma directions_lookup (r : Z) :
  exists label, directions !! Z.to_nat (r mod 16) = Some label /\ label ∈ directions.
Proof.
  assert (Hlt : (Z.to_nat (r mod 16) < length directions)%nat).
  { pose proof (Z.mod_pos_bound r 16 ltac:(lia)). simpl. lia. }
  destruct (lookup_lt_is_Some_2 directions _ Hlt) as [label Hl].
  exists label. split; [exact Hl|]. now apply list_elem_of_lookup_2 in Hl.
Qed.

(** Whatever the direction, negative or beyond 360 degrees included, an
    answer of [cardinal_direction] is one of the sixteen labels: the
    index never leaves the table.  It raises, [ValueError] or
    [OverflowError] and nothing else, when the quotient cannot be
    rounded; a NaN direction always raises. *)
Theorem cardinal_direction_in_table (degrees : float) :
  match cardinal_direction degrees with
  | Ret label => label ∈ directions
  | Raise e => e = ValueError \/ e = OverflowError
  end /\
  (is_nan degrees = true -> cardinal_direction degrees = Raise ValueError).
Proof.
  unfold cardinal_direction.
  rewrite py_truediv_nonzero by reflexivity. cbn [bind]. split.
  - destruct (py_round (degrees / 22.5)) as [r|e] eqn:Hr; cbn [bind].
    + destruct (directions_lookup r) as (label & -> & Hin). exact Hin.
    + simpl. exact (py_round_raises _ e Hr).
  - intros Hnan. now rewrite (py_round_nan_quotient _ _ Hnan).
Qed.

(** The direction is read modulo a full turn: for whole degrees from
    -720 to 1079, [cardinal_direction] gives the label of the direction
    reduced to 0..359. *)
Theorem cardinal_direction_wraps (degrees : Z) :
  -720 <= degrees < 1080 ->
  exists label,
    cardinal_direction (float_of_Z degrees) = Ret label /\
    cardinal_direction (float_of_Z (degrees mod 360)) = Ret label.
Proof.
  intros Hd.
  pose proof (proj1 (forallb_forall _ _) cardinal_wraps_all degrees
                (in_range (-720) 1800 degrees ltac:(lia))) as Hok.
  unfold cardinal_wraps in Hok.
  destruct (cardinal_direction (float_of_Z degrees)) as [a|e]; [|discriminate].
  destruct (cardinal_direction (float_of_Z (degrees mod 360))) as [b|e];
    [|discriminate].
  apply String.eqb_eq in Hok as ->. now exists b.
Qed.

Lemma cardinal_direction_wraps_witness :
  -720 <= -90 < 1080 /\
  cardinal_direction (float_of_Z (-90)) = Ret "W"%string /\
  cardinal_direction (float_of_Z 270) = Ret "W"%string.
Proof.
  assert (Hd : -720 <= -90 < 1080) by lia.
  split; [exact Hd|].
  destruct (cardinal_direction_wraps (-90) Hd) as (label & Ha & Hb).
  assert (Hl : label = "W"%string).
  { assert (Hc : cardinal_direction (float_of_Z (-90)) = Ret "W"%string)
      by (vm_compute; reflexivity).
    rewrite Hc in Ha. now injection Ha as <-. }
  subst label. split; [exact Ha|exact Hb].
Defined.

End ClassificationProperties.

(* ===================================================================== *)
(** * Further properties: the caches *)
(* ===================================================================== *)

Section CacheProperties.
Import Py Store Bot Reference.

Lemma weather_hit_same_key (clk : clock) (w : world) (city city' : string) :
  lower city' = lower city -> weather_hit clk w city' = weather_hit clk w city.
Proof. intros Hk. unfold weather_hit. now rewrite Hk. Qed.

Lemma weather_hit_after_store (clk clk2 : clock) (w : world) (city city' : string)
    (v : weather) :
  lower city' = lower city ->
  now clk2 - now clk < 5 * 60 * 1000000 ->
  weather_hit clk2
    (set_weather_cache (<[lower city := (v, now clk)]> (weather_cache w))
       (add_event (EvHttpWeather city) w)) city' = Some v.
Proof.
  intros Hk Hage. unfold weather_hit. rewrite Hk.
  cbn [weather_cache set_weather_cache]. rewrite lookup_insert_eq.
  now rewrite (proj2 (Z.ltb_lt _ WEATHER_CACHE_TTL) Hage).
Qed.



(** The picture of the day is shared: once [get_nasa_image] has answered,
    a second call at the same time, for whichever user, returns the same
    picture and makes no request; after a request this holds for every
    call less than twelve hours later. *)
Theorem nasa_answer_repeats (E : env) (clk : clock) (w w1 : world) (v : apod) :
  get_nasa_image E clk w = (Ret (Some v), w1) ->
  get_nasa_image E clk w1 = (Ret (Some v), w1) /\
  (nasa_hit clk w = None ->
   forall clk2, now clk2 - now clk < 12 * 3600 * 1000000 ->
                get_nasa_image E clk2 w1 = (Ret (Some v), w1)).
Proof.
  intros Hrun. rewrite get_nasa_image_unfold in Hrun.
  destruct (nasa_hit clk w) as [cached|] eqn:Hhit.
  - injection Hrun as <- <-. split; [|discriminate].
    now rewrite get_nasa_image_unfold, Hhit.
  - destruct (http_nasa E (trace w)) as [result|]; [|discriminate].
    injection Hrun as <- <-.
    assert (Hlater : forall clk2, now clk2 - now clk < 12 * 3600 * 1000000 ->
              get_nasa_image E clk2
                (set_nasa_cache (Some (result, now clk)) (add_event EvHttpNasa w))
              = (Ret (Some result),
                 set_nasa_cache (Some (result, now clk)) (add_event EvHttpNasa w))).
    { intros clk2 Hage. rewrite get_nasa_image_unfold.
      assert (Hh : nasa_hit clk2
                     (set_nasa_cache (Some (result, now clk)) (add_event EvHttpNasa w))
                   = Some result).
      { unfold nasa_hit. cbn [nasa_cache set_nasa_cache].
        now rewrite (proj2 (Z.ltb_lt _ NASA_CACHE_TTL) Hage). }
      now rewrite Hh. }
    split; [apply Hlater; lia|]. intros _. exact Hlater.
Qed.

Lemma nasa_answer_repeats_witness :
  let w1 := set_nasa_cache (Some (sample_apod, 0)) (add_event EvHttpNasa empty_world) in
  get_nasa_image sample_env (clock_at 0) empty_world = (Ret (Some sample_apod), w1) /\
  get_nasa_image sample_env (clock_at 43199999999) w1 = (Ret (Some sample_apod), w1).
Proof.
  intros w1.
  assert (Hrun : get_nasa_image sample_env (clock_at 0) empty_world
                 = (Ret (Some sample_apod), w1)) by (vm_compute; reflexivity).
  split; [exact Hrun|].
  destruct (nasa_answer_repeats sample_env (clock_at 0) empty_world w1 sample_apod Hrun)
    as [_ Hlater].
  apply Hlater; [reflexivity|]. simpl. lia.
Defined.

End CacheProperties.

(* ===================================================================== *)
(** * Further properties: what the operations call and leave alone *)
(* ===================================================================== *)

Section Confinement.
Import Py Store Bot Reference.
Context `{Libm}.
Local Open Scope bot_scope.

Lemma confined_weaken {A : Type} (P Q : event -> Prop) (c : M A) :
  (forall ev, P ev -> Q ev) -> confined P c -> confined Q c.
Proof.
  intros HPQ Hc w. destruct (Hc w) as (Hu & Hd & Hwc & Hn & t & Ht & HP).
  repeat split; try assumption. exists t. split; [exact Ht|].
  eapply Forall_impl; eauto.
Qed.

Lemma confined_pure {A : Type} (P : event -> Prop) (c : M A) :
  (forall w, snd (c w) = w) -> confined P c.
Proof.
  intros Hc w. rewrite Hc. repeat split; try done.
  exists []. now rewrite app_nil_r.
Qed.

Lemma confined_ret {A : Type} (P : event -> Prop) (a : A) : confined P (ret a).
Proof. now apply confined_pure. Qed.

Lemma confined_lift {A : Type} (P : event -> Prop) (r : result A) :
  confined P (lift r).
Proof. now apply confined_pure. Qed.

Lemma confined_get (P : event -> Prop) : confined P get.
Proof. now apply confined_pure. Qed.

Lemma confined_step (P : event -> Prop) (w w1 w2 : world) :
  (user_settings w1 = user_settings w /\
   db_file w1 = db_file w /\
   dom (weather_cache w) ⊆ dom (weather_cache w1) /\
   (is_Some (nasa_cache w) -> is_Some (nasa_cache w1)) /\
   exists t, trace w1 = trace w ++ t /\ Forall P t) ->
  (user_settings w2 = user_settings w1 /\
   db_file w2 = db_file w1 /\
   dom (weather_cache w1) ⊆ dom (weather_cache w2) /\
   (is_Some (nasa_cache w1) -> is_Some (nasa_cache w2)) /\
   exists t, trace w2 = trace w1 ++ t /\ Forall P t) ->
  user_settings w2 = user_settings w /\
  db_file w2 = db_file w /\
  dom (weather_cache w) ⊆ dom (weather_cache w2) /\
  (is_Some (nasa_cache w) -> is_Some (nasa_cache w2)) /\
  exists t, trace w2 = trace w ++ t /\ Forall P t.
Proof.
  intros (Hu & Hd & Hwc & Hn & t & Ht & HP) (Hu' & Hd' & Hwc' & Hn' & t' & Ht' & HP').
  split; [congruence|]. split; [congruence|].
  split; [set_solver|]. split; [auto|].
  exists (t ++ t'). rewrite Ht', Ht, app_assoc. split; [reflexivity|].
  now apply Forall_app.
Qed.

Lemma confined_bind {A B : Type} (P : event -> Prop) (c : M A) (k : A -> M B) :
  confined P c -> (forall a, confined P (k a)) -> confined P (mbind c k).
Proof.
  intros Hc Hk w. unfold mbind. pose proof (Hc w) as H1.
  destruct (c w) as [[a|e] w1]; cbn [snd] in *; [|exact H1].
  exact (confined_step P w w1 _ H1 (Hk a w1)).
Qed.

Lemma confined_try_catch {A : Type} (P : event -> Prop) (c : M A) (h : exn -> M A) :
  confined P c -> (forall e, confined P (h e)) -> confined P (try_catch c h).
Proof.
  intros Hc Hh w. unfold try_catch. pose proof (Hc w) as H1.
  destruct (c w) as [[a|e] w1]; cbn [snd] in *; [exact H1|].
  exact (confined_step P w w1 _ H1 (Hh e w1)).
Qed.

Lemma confined_call_raising (P : event -> Prop) (ev : event)
    (answer : list event -> option exn) :
  P ev -> confined P (call_raising ev answer).
Proof.
  intros Hev w. cbn. repeat split; try done. exists [ev]. split; [reflexivity|].
  now constructor.
Qed.

Lemma confined_get_weather (E : env) (P : event -> Prop) (clk : clock) (city : string) :
  P (EvHttpWeather city) -> confined P (get_weather E clk city).
Proof.
  intros Hev w. rewrite get_weather_unfold.
  destruct (weather_hit clk w city).
  - cbn. repeat split; try done. exists []. now rewrite app_nil_r.
  - destruct (http_weather E (trace w) city); cbn.
    + repeat split; try done; [rewrite dom_insert; set_solver|].
      exists [EvHttpWeather city]. split; [reflexivity|]. now constructor.
    + repeat split; try done.
      exists [EvHttpWeather city]. split; [reflexivity|]. now constructor.
Qed.

Lemma confined_get_nasa_image (E : env) (P : event -> Prop) (clk : clock) :
  P EvHttpNasa -> confined P (get_nasa_image E clk).
Proof.
  intros Hev w. rewrite get_nasa_image_unfold.
  destruct (nasa_hit clk w).
  - cbn. repeat split; try done. exists []. now rewrite app_nil_r.
  - destruct (http_nasa E (trace w)); cbn.
    + repeat split; try done.
      exists [EvHttpNasa]. split; [reflexivity|]. now constructor.
    + repeat split; try done.
      exists [EvHttpNasa]. split; [reflexivity|]. now constructor.
Qed.

Lemma confined_reply (E : env) (P : event -> Prop) (msg : message) :
  (forall ev, is_reply ev -> P ev) -> confined P (reply E msg).
Proof. intros HP. apply confined_call_raising, HP. exact I. Qed.

(** The commands that only read: [atmosphere], [station] and [nasa]
    never change a settings record or the database file, never drop a
    cache entry, and make no call but requests to the two data providers
    and replies to their own interaction; in particular they send no
    direct message and write no file, whatever fails. *)
Theorem reading_commands_are_confined (E : env) (clk : clock) (user_id : Z) :
  confined (fun ev => is_request ev \/ is_reply ev) (atmosphere E clk user_id) /\
  confined (fun ev => is_request ev \/ is_reply ev) (station E clk user_id) /\
  confined (fun ev => is_request ev \/ is_reply ev) (nasa E clk).
Proof.
  set (P := fun ev => is_request ev \/ is_reply ev).
  assert (Hreply : forall msg, confined P (reply E msg))
    by (intros msg; apply confined_reply; intros ev Hev; now right).
  assert (Hdefer : confined P (call_raising EvDefer (fun _ => None)))
    by (apply confined_call_raising; right; exact I).
  split; [|split].
  - unfold atmosphere. apply confined_try_catch; [|intros e; apply Hreply].
    apply confined_bind; [apply confined_get|intros w0].
    destruct (user_settings w0 !! user_id) as [settings|]; [|apply Hreply].
    apply confined_bind; [exact Hdefer|intros _].
    apply confined_bind; [apply confined_lift|intros city_v].
    apply confined_bind; [apply confined_lift|intros city].
    apply confined_bind; [apply confined_get_weather; left; exact I|intros [data|]];
      [|apply Hreply].
    apply confined_bind; [apply confined_lift|intros a]. apply Hreply.
  - unfold station. apply confined_try_catch; [|intros e; apply Hreply].
    apply confined_bind; [apply confined_get|intros w0].
    destruct (user_settings w0 !! user_id) as [settings|]; [|apply Hreply].
    repeat (apply confined_bind; [apply confined_lift|intros ?]).
    apply Hreply.
  - unfold nasa. apply confined_try_catch; [|intros e; apply Hreply].
    apply confined_bind; [exact Hdefer|intros _].
    apply confined_bind; [apply confined_get_nasa_image; left; exact I|].
    intros [[[url title] explanation]|]; apply Hreply.
Qed.

(** One daily report calls only the data providers and its own user. *)
Lemma confined_send_daily_report (E : env) (clk : clock) (user_id : Z)
    (settings : record) :
  confined (fun ev => is_request ev \/ for_user user_id ev)
           (send_daily_report E clk user_id settings).
Proof.
  set (P := fun ev => is_request ev \/ for_user user_id ev).
  assert (Hsend : forall msg, confined P (send E user_id msg))
    by (intros msg; apply confined_call_raising; right; reflexivity).
  unfold send_daily_report. apply confined_try_catch; [|intros e; apply confined_ret].
  apply confined_bind; [apply confined_call_raising; right; reflexivity|intros _].
  apply confined_bind; [apply confined_lift|intros city_v].
  apply confined_bind; [apply confined_lift|intros country].
  apply confined_bind; [apply confined_lift|intros city].
  apply confined_bind; [apply confined_get_weather; left; exact I|intros [data|]];
    [|apply confined_ret].
  apply confined_bind; [apply confined_lift|intros r].
  apply confined_bind; [apply Hsend|intros _].
  apply confined_bind; [apply confined_get_nasa_image; left; exact I|].
  intros [[[url title] explanation]|]; [apply Hsend|apply confined_ret].
Qed.

Lemma confined_check_user (E : env) (clk : clock) (user_id : Z) (settings : record) :
  confined (fun ev => is_request ev \/
                      (for_user user_id ev /\ report_due clk settings = Ret true))
           (check_user E clk user_id settings).
Proof.
  unfold check_user.
  destruct (report_due clk settings) as [[|]|e] eqn:Hdue.
  - apply confined_try_catch; [|intros e; apply confined_ret].
    change (confined (fun ev => is_request ev \/
                                (for_user user_id ev /\ Ret true = Ret true))
                     (send_daily_report E clk user_id settings)).
    apply (confined_weaken (fun ev => is_request ev \/ for_user user_id ev));
      [|apply confined_send_daily_report].
    intros ev [Hev|Hev]; [now left|now right].
  - apply confined_try_catch; [|intros e; apply confined_ret].
    apply (confined_ret _ tt).
  - apply confined_try_catch; [|intros e'; apply confined_ret].
    apply confined_pure. reflexivity.
Qed.


End Confinement.

(* ===================================================================== *)
(** * Further properties: the order of the calls of a report *)
(* ===================================================================== *)

Section ReportProtocol.
Import Py Store Bot Reference.
Context `{Libm}.
Local Open Scope bot_scope.

Lemma traces_weaken {A : Type} (S1 S2 : list event -> Prop) (c : M A) :
  (forall t, S1 t -> S2 t) -> traces S1 c -> traces S2 c.
Proof.
  intros HS Hc w. destruct (Hc w) as (t & Ht & H1). exists t. auto.
Qed.

Lemma traces_pure {A : Type} (S : list event -> Prop) (c : M A) :
  (forall w, snd (c w) = w) -> S [] -> traces S c.
Proof.
  intros Hc HS w. exists []. rewrite Hc, app_nil_r. auto.
Qed.

Lemma traces_bind {A B : Type} (S1 S2 : list event -> Prop) (c : M A) (k : A -> M B) :
  traces S1 c -> (forall a, traces S2 (k a)) ->
  traces (then_maybe S1 S2) (mbind c k).
Proof.
  intros Hc Hk w. unfold mbind. destruct (Hc w) as (t1 & Ht1 & H1).
  destruct (c w) as [[a|e] w1]; cbn [snd] in *.
  - destruct (Hk a w1) as (t2 & Ht2 & H2).
    exists (t1 ++ t2). rewrite Ht2, Ht1, app_assoc. split; [reflexivity|].
    exists t1, t2. auto.
  - exists t1. split; [exact Ht1|]. exists t1, []. rewrite app_nil_r. auto.
Qed.

Lemma traces_bind_pure {A B : Type} (S : list event -> Prop) (c : M A) (k : A -> M B) :
  (forall w, snd (c w) = w) -> S [] -> (forall a, traces S (k a)) ->
  traces S (mbind c k).
Proof.
  intros Hc HS Hk w. unfold mbind. pose proof (Hc w) as Hw.
  destruct (c w) as [[a|e] w1]; cbn [snd] in *; subst w1.
  - apply Hk.
  - exists []. rewrite app_nil_r. auto.
Qed.

Lemma traces_try_catch_ret (S : list event -> Prop) (c : M unit) :
  traces S c -> traces S (try_catch c (fun _ => ret tt)).
Proof.
  intros Hc w. unfold try_catch. destruct (Hc w) as (t & Ht & HS).
  destruct (c w) as [[a|e] w1]; cbn [snd ret] in *; exists t; auto.
Qed.

Lemma traces_call_raising (ev : event) (answer : list event -> option exn) :
  traces (fun t => t = [ev]) (call_raising ev answer).
Proof. intros w. exists [ev]. split; reflexivity. Qed.

Lemma traces_get_weather (E : env) (clk : clock) (city : string) :
  traces lookup_shape (get_weather E clk city).
Proof.
  intros w. rewrite get_weather_unfold.
  destruct (weather_hit clk w city).
  - exists []. rewrite app_nil_r. split; [reflexivity|now left].
  - destruct (http_weather E (trace w) city); exists [EvHttpWeather city];
      (split; [reflexivity|right; now exists city]).
Qed.

Lemma traces_get_nasa_image (E : env) (clk : clock) :
  traces (fun t => t = [] \/ t = [EvHttpNasa]) (get_nasa_image E clk).
Proof.
  intros w. rewrite get_nasa_image_unfold.
  destruct (nasa_hit clk w).
  - exists []. rewrite app_nil_r. split; [reflexivity|now left].
  - destruct (http_nasa E (trace w)); exists [EvHttpNasa];
      (split; [reflexivity|now right]).
Qed.

(** The calls of [send_daily_report], in their order: the user lookup;
    at most one weather request; then nothing more, or the report to that
    user followed by at most one picture request and at most one picture
    to that user.  So no picture goes out before the report or without
    it, nothing goes to another user, and no user gets two reports from
    one call. *)
Theorem send_daily_report_protocol (E : env) (clk : clock) (user_id : Z)
    (settings : record) (w : world) :
  exists l r,
    trace (snd (send_daily_report E clk user_id settings w))
      = trace w ++ EvFetchUser user_id :: l ++ r /\
    lookup_shape l /\ report_shape user_id r.
Proof.
  assert (Hpic : traces (picture_shape user_id)
                   (image <- get_nasa_image E clk ;;
                    match image with
                    | Some (url, title, explanation) =>
                        send E user_id (NasaImage url title (desc_short explanation))
                    | None => ret tt
                    end)).
  { eapply traces_weaken;
      [|apply (traces_bind (fun t => t = [] \/ t = [EvHttpNasa])
                           (fun t => t = [] \/ exists url title explanation,
                                t = [EvSend user_id (NasaImage url title explanation)]));
        [apply traces_get_nasa_image|]].
    - intros t (t1 & t2 & -> & [->| ->] & [->|[->|(url & title & e & ->)]]); cbn.
      + now left.
      + now left.
      + right. right. exists url, title, e. now left.
      + right. now left.
      + right. now left.
      + right. right. exists url, title, e. now right.
    - intros [[[url title] explanation]|].
      + intros w0. exists [EvSend user_id (NasaImage url title (desc_short explanation))].
        split; [reflexivity|]. right. now exists url, title, (desc_short explanation).
      + apply traces_pure; [reflexivity|now left]. }
  assert (Hrep : forall city country data,
            traces (report_shape user_id)
              (r <- lift (build_report clk settings city country data) ;;
               send E user_id (DailyReport r) ;;;
               image <- get_nasa_image E clk ;;
               match image with
               | Some (url, title, explanation) =>
                   send E user_id (NasaImage url title (desc_short explanation))
               | None => ret tt
               end)).
  { intros city country data.
    apply traces_bind_pure; [reflexivity|now left|intros r].
    eapply traces_weaken;
      [|apply (traces_bind (fun t => t = [EvSend user_id (DailyReport r)])
                           (picture_shape user_id));
        [apply traces_call_raising|intros _; exact Hpic]].
    intros t (t1 & t2 & -> & -> & Ht2). right. exists r, t2. split; [reflexivity|].
    destruct Ht2 as [->|Ht2]; [now left|exact Ht2]. }
  assert (Hbody : traces (fun t => exists l r, t = EvFetchUser user_id :: l ++ r /\
                                               lookup_shape l /\ report_shape user_id r)
                    (send_daily_report E clk user_id settings)).
  { unfold send_daily_report. apply traces_try_catch_ret.
    eapply traces_weaken;
      [|apply (traces_bind (fun t => t = [EvFetchUser user_id])
                           (then_maybe lookup_shape (report_shape user_id)));
        [apply traces_call_raising|intros _]].
    - intros t (t1 & t2 & -> & -> & [->|(l & r & -> & Hl & Hr)]).
      + exists [], []. split; [reflexivity|]. split; now left.
      + exists l, r. split; [reflexivity|]. split; [exact Hl|].
        destruct Hr as [->|Hr]; [now left|exact Hr].
    - assert (Hnone : then_maybe lookup_shape (report_shape user_id) []).
      { exists [], []. split; [reflexivity|]. split; [now left|now left]. }
      apply traces_bind_pure; [reflexivity|exact Hnone|intros city_v].
      apply traces_bind_pure; [reflexivity|exact Hnone|intros country].
      apply traces_bind_pure; [reflexivity|exact Hnone|intros city].
      apply traces_bind; [apply traces_get_weather|].
      intros [data|]; [apply Hrep|]. apply traces_pure; [reflexivity|now left]. }
  destruct (Hbody w) as (t & Ht & l & r & -> & Hl & Hr).
  exists l, r. auto.
Qed.

End ReportProtocol.

(* ===================================================================== *)
(** * Further properties: who is due, and users without a station *)
(* ===================================================================== *)

Section DueAndUnregistered.
Import Py Store Bot Reference.
Context `{Libm}.
Local Open Scope bot_scope.

(** A user is due only with a record whose ["tz"] is a string that names
    a known zone, at a local minute below 5 and a local hour equal to the
    stored report hour; an integer report hour outside 0..23 is never
    met.  So a record without ["tz"], with an unknown zone or with such an
    hour never gets a report. *)
Theorem report_due_requirements (clk : clock) (settings : record) :
  report_due clk settings = Ret true ->
  exists tz r,
    settings !! "tz"%string = Some (VStr tz) /\
    zone_now clk tz = Ret r /\
    0 <= minute_of r < 5 /\
    eq_int (hour_of r) (get_default settings "report_hour" (VInt 8)) = true /\
    (forall rh, get_default settings "report_hour" (VInt 8) = VInt rh ->
                rh = hour_of r /\ 0 <= rh <= 23).
Proof.
  unfold report_due, getitem.
  destruct (settings !! "tz"%string) as [[tz|n|x]|] eqn:Htz; cbn;
    try discriminate.
  destruct (zone_now clk tz) as [r|e] eqn:Hr; cbn; [|discriminate].
  intros [= Hdue]. apply andb_prop in Hdue as [Hhour Hmin].
  exists tz, r. split; [reflexivity|]. split; [exact Hr|].
  split; [|split; [exact Hhour|]].
  - apply Z.ltb_lt in Hmin. unfold minute_of in *.
    pose proof (Z.mod_pos_bound (r / 60) 60 ltac:(lia)). lia.
  - intros rh Hrh. rewrite Hrh in Hhour. cbn in Hhour. apply Z.eqb_eq in Hhour.
    subst rh. split; [reflexivity|]. unfold hour_of.
    pose proof (Z.mod_pos_bound (r / 3600) 24 ltac:(lia)). lia.
Qed.

Lemma reply_answered (E : env) (hint err : message) (w : world) :
  answered_with hint err w
    (snd (try_catch (reply E hint) (fun _ => reply E err) w)).
Proof.
  unfold try_catch, reply, call_raising.
  destruct (respond E (trace w) hint); cbn; unfold answered_with; cbn;
    repeat split; try reflexivity; [right|left]; try reflexivity.
  now rewrite <- app_assoc.
Qed.

(** A user without a station gets the hint and nothing else: [atmosphere],
    [station] and [settings], with any arguments, make no request, defer
    nothing, change no record, cache or file; the only calls are the hint
    and, if sending it fails, the handler's error message. *)
Theorem unregistered_user_gets_hint (E : env) (clk : clock) (user_id : Z)
    (temperature_unit : option unit_choice) (report_hour : option Z) (w : world) :
  user_settings w !! user_id = None ->
  answered_with NoStationConfigured AtmosphereError w
    (snd (atmosphere E clk user_id w)) /\
  answered_with NoStationInitialized StationError w
    (snd (station E clk user_id w)) /\
  answered_with ConfigureLocationFirst SettingsError w
    (snd (settings E user_id temperature_unit report_hour w)).
Proof.
  intros Hnone.
  pose proof (reply_answered E NoStationConfigured AtmosphereError w) as Ha.
  pose proof (reply_answered E NoStationInitialized StationError w) as Hs.
  pose proof (reply_answered E ConfigureLocationFirst SettingsError w) as Hc.
  unfold try_catch in Ha, Hs, Hc.
  split; [|split].
  - unfold atmosphere, try_catch. unfold mbind at 1. cbn [get]. now rewrite Hnone.
  - unfold station, try_catch. unfold mbind at 1. cbn [get]. now rewrite Hnone.
  - unfold settings, try_catch. unfold mbind at 1. cbn [get]. now rewrite Hnone.
Qed.

End DueAndUnregistered.

Section DueAndUnregisteredRuns.
Import Py Store Bot Reference.

Lemma report_due_requirements_witness :
  report_due (clock_at ((8 * 3600 + 183 - 3600) * 1000000)) paris_record = Ret true /\
  exists r, zone_now (clock_at ((8 * 3600 + 183 - 3600) * 1000000)) "Europe/Paris" = Ret r /\
            hour_of r = 8.
Proof.
  assert (Hdue : report_due (clock_at ((8 * 3600 + 183 - 3600) * 1000000)) paris_record
                 = Ret true) by (vm_compute; reflexivity).
  split; [exact Hdue|].
  destruct (report_due_requirements _ _ Hdue) as (tz & r & Htz & Hr & _ & _ & Hrh).
  assert (Heq : tz = "Europe/Paris"%string).
  { assert (Hp : paris_record !! "tz"%string = Some (VStr "Europe/Paris"))
      by (vm_compute; reflexivity).
    rewrite Hp in Htz. now injection Htz as <-. }
  subst tz. exists r. split; [exact Hr|].
  destruct (Hrh 8 eq_refl) as [Hh _]. now symmetry.
Defined.

Lemma unregistered_user_gets_hint_witness :
  trace (snd (atmosphere (H := series_libm) sample_env (clock_at 0) 7 registered_world))
    = [EvRespond NoStationConfigured] /\
  user_settings (snd (settings sample_env 7 (Some Kelvin) (Some 9) registered_world))
    = user_settings registered_world.
Proof.
  destruct (unregistered_user_gets_hint (H := series_libm) sample_env (clock_at 0) 7
              (Some Kelvin) (Some 9) registered_world eq_refl)
    as ((_ & _ & _ & _ & Ht) & _ & (Hu & _)).
  split; [|exact Hu].
  destruct Ht as [Ht|Ht]; [exact Ht|].
  assert (Hr : trace (snd (atmosphere (H := series_libm) sample_env (clock_at 0) 7
                             registered_world)) = [EvRespond NoStationConfigured])
    by (vm_compute; reflexivity).
  exact Hr.
Defined.

End DueAndUnregisteredRuns.

(* ===================================================================== *)
(** * Further properties: registering a location *)
(* ===================================================================== *)

Section RegistrationProperties.
Import Py Store Bot Reference.
Local Open Scope bot_scope.

Lemma get_weather_settings (E : env) (clk : clock) (city : string) (w : world) :
  user_settings (snd (get_weather E clk city w)) = user_settings w /\
  db_file (snd (get_weather E clk city w)) = db_file w /\
  exists r, fst (get_weather E clk city w) = Ret r.
Proof.
  rewrite get_weather_unfold.
  destruct (weather_hit clk w city); [cbn; eauto|].
  destruct (http_weather E (trace w) city); cbn; eauto.
Qed.

(** The world after a registration whose weather lookup succeeded. *)
Lemma setlocation_success_run (E : env) (clk : clock) (w w1 : world)
    (user_id : Z) (city : string) (result : weather) :
  (String.length (strip city) =? 0)%nat || (100 <? String.length (strip city))%nat = false ->
  get_weather E clk (strip city) (add_event EvDefer w) = (Ret (Some result), w1) ->
  let tz_str := get_timezone_from_coords E (lat result) (lon result) in
  let w2 := set_user_settings
              (<[user_id := station_record result tz_str]> (user_settings w1)) w1 in
  let data := dump_settings (user_settings w2) in
  let w3 := if write_ok E (trace w1)
            then set_db_file (JsonFile data) (add_event (EvWriteDb data) w2)
            else add_event (EvWriteDb data) w2 in
  let msg := StationConfigured (city_name result) (country result)
               (lat result) (lon result) tz_str
               (get_local_time clk (VStr tz_str)) in
  snd (setlocation E clk user_id city w)
  = match respond E (trace w3) msg with
    | None => add_event (EvRespond msg) w3
    | Some _ => add_event (EvRespond SetLocationError) (add_event (EvRespond msg) w3)
    end.
Proof.
  intros Hlen Hgw tz_str w2 data w3 msg.
  unfold setlocation, try_catch. rewrite Hlen.
  unfold mbind at 1. cbn [call_raising]. unfold mbind at 1. rewrite Hgw.
  fold tz_str. unfold mbind at 1. cbn [modify]. fold w2.
  unfold mbind at 1.
  assert (Hsave : save_user_settings E w2 = (Ret tt, w3)).
  { unfold save_user_settings, try_catch, mbind, get, write_db, ret. fold data.
    subst w3. change (trace w2) with (trace w1).
    now destruct (write_ok E (trace w1)). }
  rewrite Hsave. unfold reply, call_raising. fold msg.
  now destruct (respond E (trace w3) msg).
Qed.

(** The world after a registration whose weather lookup failed. *)
Lemma setlocation_unresolved_run (E : env) (clk : clock) (w w1 : world)
    (user_id : Z) (city : string) :
  (String.length (strip city) =? 0)%nat || (100 <? String.length (strip city))%nat = false ->
  get_weather E clk (strip city) (add_event EvDefer w) = (Ret None, w1) ->
  snd (setlocation E clk user_id city w)
  = snd (try_catch (reply E (UnableToResolve (strip city)))
                   (fun _ => reply E SetLocationError) w1).
Proof.
  intros Hlen Hgw.
  unfold setlocation, try_catch. rewrite Hlen.
  unfold mbind at 1. cbn [call_raising]. unfold mbind at 1. now rewrite Hgw.
Qed.



(** When the place cannot be resolved, the registration changes nothing
    that is stored: the user's earlier record, if any, stays, the file is
    not written, and the answer names the place as unresolved. *)
Theorem setlocation_unresolved_keeps_record (E : env) (clk : clock) (w w1 : world)
    (user_id : Z) (city : string) :
  (String.length (strip city) =? 0)%nat || (100 <? String.length (strip city))%nat = false ->
  get_weather E clk (strip city) (add_event EvDefer w) = (Ret None, w1) ->
  let w' := snd (setlocation E clk user_id city w) in
  user_settings w' = user_settings w /\
  db_file w' = db_file w /\
  answered_with (UnableToResolve (strip city)) SetLocationError w1 w'.
Proof.
  intros Hlen Hgw w'.
  destruct (get_weather_settings E clk (strip city) (add_event EvDefer w))
    as (Hu1 & Hd1 & _).
  rewrite Hgw in Hu1, Hd1. cbn [snd] in Hu1, Hd1.
  pose proof (reply_answered E (UnableToResolve (strip city)) SetLocationError w1) as Ha.
  rewrite <- (setlocation_unresolved_run E clk w w1 user_id city Hlen Hgw) in Ha.
  fold w' in Ha. destruct Ha as (Hu & Hc & Hn & Hd & Ht).
  split; [now rewrite Hu, Hu1|]. split; [now rewrite Hd, Hd1|].
  unfold answered_with. auto.
Qed.

Lemma setlocation_unresolved_keeps_record_witness :
  let w' := snd (setlocation offline_env (clock_at 0) 1 "Atlantis" registered_world) in
  user_settings w' !! 1 = Some paris_record /\
  db_file w' = NoFile.
Proof.
  intros w'.
  assert (Hlen : (String.length (strip "Atlantis") =? 0)%nat
                 || (100 <? String.length (strip "Atlantis"))%nat = false)
    by (vm_compute; reflexivity).
  assert (Hgw : get_weather offline_env (clock_at 0) (strip "Atlantis")
                  (add_event EvDefer registered_world)
                = (Ret None, add_event (EvHttpWeather "Atlantis")
                               (add_event EvDefer registered_world)))
    by (vm_compute; reflexivity).
  destruct (setlocation_unresolved_keeps_record offline_env (clock_at 0)
              registered_world _ 1 "Atlantis" Hlen Hgw) as (Hu & Hd & _).
  fold w' in Hu, Hd. split; [now rewrite Hu|exact Hd].
Defined.

Lemma add_respond_settings (w : world) (msg err : message) (o : option exn) :
  user_settings (match o with
                 | None => add_event (EvRespond msg) w
                 | Some _ => add_event (EvRespond err) (add_event (EvRespond msg) w)
                 end) = user_settings w.
Proof. now destruct o. Qed.

(** A registration is all or nothing for the stored records: afterwards
    [user_settings] is what it was, or it is what it was with the
    caller's record replaced by a freshly built one.  No other user's
    record is ever touched, and the caller's record is never left partly
    updated. *)
Theorem setlocation_all_or_nothing (E : env) (clk : clock) (user_id : Z)
    (city : string) (w : world) :
  let w' := snd (setlocation E clk user_id city w) in
  (user_settings w' = user_settings w \/
   exists result,
     user_settings w' =
       <[user_id := station_record result
                      (get_timezone_from_coords E (lat result) (lon result))]>
         (user_settings w)) /\
  (forall other, other <> user_id ->
                 user_settings w' !! other = user_settings w !! other).
Proof.
  intros w'.
  assert (Hcases : user_settings w' = user_settings w \/
                   exists result,
                     user_settings w' =
                       <[user_id := station_record result
                                      (get_timezone_from_coords E (lat result) (lon result))]>
                         (user_settings w)).
  { destruct ((String.length (strip city) =? 0)%nat
              || (100 <? String.length (strip city))%nat) eqn:Hlen.
    - left. subst w'. unfold setlocation. rewrite Hlen.
      now destruct (reply_answered E InvalidCityName SetLocationError w) as (Hu & _).
    - destruct (get_weather_settings E clk (strip city) (add_event EvDefer w))
        as (Hu1 & _ & r & Hr).
      destruct (get_weather E clk (strip city) (add_event EvDefer w)) as [r' w1] eqn:Hgw.
      cbn [fst snd] in Hu1, Hr. subst r'.
      change (user_settings (add_event EvDefer w)) with (user_settings w) in Hu1.
      destruct r as [result|].
      + right. exists result. subst w'.
        rewrite (setlocation_success_run E clk w w1 user_id city result Hlen Hgw).
        rewrite add_respond_settings.
        destruct (write_ok E (trace w1)); cbn; now rewrite Hu1.
      + left. subst w'.
        rewrite (setlocation_unresolved_run E clk w w1 user_id city Hlen Hgw).
        destruct (reply_answered E (UnableToResolve (strip city)) SetLocationError w1)
          as (Hu & _).
        now rewrite Hu. }
  split; [exact Hcases|].
  intros other Hne. destruct Hcases as [->|(result & ->)]; [reflexivity|].
  now apply lookup_insert_ne.
Qed.

(** The zone stored by a registration is never the empty string: when the
    lookup by coordinates raises or finds nothing, it is ["UTC"]. *)
Lemma get_timezone_from_coords_nonempty (E : env) (lat lon : float) :
  get_timezone_from_coords E lat lon <> ""%string /\
  (forall tz, timezone_at E lat lon = Ret (Some tz) -> tz <> ""%string ->
              get_timezone_from_coords E lat lon = tz) /\
  ((forall tz, timezone_at E lat lon = Ret (Some tz) -> tz = ""%string) ->
   get_timezone_from_coords E lat lon = "UTC"%string).
Proof.
  unfold get_timezone_from_coords.
  destruct (timezone_at E lat lon) as [[tz|]|e]; try (repeat split; congruence).
  destruct (String.eqb_spec tz "") as [->|Hne].
  - split; [discriminate|]. split; [intros tz' [= <-] Hn; now destruct Hn|reflexivity].
  - split; [exact Hne|]. split; [now intros tz' [= <-] _|].
    intros Hall. now destruct (Hne (Hall tz eq_refl)).
Qed.



End RegistrationProperties.
(* ===================================================================== *)
(** * Further properties: changing and viewing the settings *)
(* ===================================================================== *)

Section SettingsProperties.
Import Py Store Bot Reference.
Local Open Scope bot_scope.
Variable E : env.

Lemma alter_insert_record (m : settings_map) (user_id : Z) (old : record)
    (key : string) (v : pyval) :
  m !! user_id = Some old ->
  alter (insert key v) user_id m = <[user_id := <[key := v]> old]> m.
Proof.
  intros Hold. apply map_eq. intros k. destruct (decide (k = user_id)) as [->|Hne].
  - now rewrite lookup_alter_eq, lookup_insert_eq, Hold.
  - now rewrite lookup_alter_ne, lookup_insert_ne by congruence.
Qed.

Lemma setitem_world (w : world) (user_id : Z) (old : record) (key : string) (v : pyval) :
  user_settings w !! user_id = Some old ->
  set_user_settings (alter (insert key v) user_id (user_settings w)) w
  = set_user_settings (<[user_id := <[key := v]> old]> (user_settings w)) w.
Proof. intros Hold. now rewrite (alter_insert_record _ user_id old key v Hold). Qed.

Lemma setitem_world_twice (w : world) (user_id : Z) (old : record)
    (key1 key2 : string) (v1 v2 : pyval) :
  user_settings w !! user_id = Some old ->
  let w0 := set_user_settings (alter (insert key1 v1) user_id (user_settings w)) w in
  set_user_settings (alter (insert key2 v2) user_id (user_settings w0)) w0
  = set_user_settings (<[user_id := <[key2 := v2]> (<[key1 := v1]> old)]> (user_settings w)) w.
Proof.
  intros Hold w0. subst w0. rewrite (setitem_world w user_id old key1 v1 Hold).
  destruct w as [us wc nc db tr]. cbn in *.
  rewrite (alter_insert_record _ user_id _ key2 v2 (lookup_insert_eq _ _ _)).
  now rewrite insert_insert_eq.
Qed.

Lemma changes_of_nil (temperature_unit : option unit_choice) (report_hour : option Z) :
  changes_of temperature_unit report_hour = [] <->
  temperature_unit = None /\ report_hour = None.
Proof.
  destruct temperature_unit, report_hour; cbn; split; intros Hx;
    try discriminate; try (now destruct Hx); auto.
Qed.

(** The world after a call of [settings] by a registered user with at
    least one value, the hour, if given, in 0..23. *)
Lemma settings_update_run (w : world) (user_id : Z) (old : record)
    (temperature_unit : option unit_choice) (report_hour : option Z) :
  user_settings w !! user_id = Some old ->
  changes_of temperature_unit report_hour <> [] ->
  (forall h, report_hour = Some h -> 0 <= h <= 23) ->
  let w1 := set_user_settings
              (<[user_id := updated_record old temperature_unit report_hour]>
                 (user_settings w)) w in
  let data := dump_settings (user_settings w1) in
  let w2 := if write_ok E (trace w)
            then set_db_file (JsonFile data) (add_event (EvWriteDb data) w1)
            else add_event (EvWriteDb data) w1 in
  let msg := SettingsUpdated (changes_of temperature_unit report_hour) in
  snd (settings E user_id temperature_unit report_hour w)
  = match respond E (trace w2) msg with
    | None => add_event (EvRespond msg) w2
    | Some _ => add_event (EvRespond SettingsError) (add_event (EvRespond msg) w2)
    end.
Proof.
  intros Hold Hchanges Hrange w1 data w2 msg.
  assert (Hsave : save_user_settings E w1 = (Ret tt, w2)).
  { unfold save_user_settings, try_catch, mbind, get, write_db, ret. fold data.
    subst w2. change (trace w1) with (trace w).
    now destruct (write_ok E (trace w)). }
  assert (Hfinish : forall changes, changes <> [] ->
            snd (match settings_finish E user_id changes w1 with
                 | (Ret a, w') => (Ret a, w')
                 | (Raise e, w') => reply E SettingsError w'
                 end)
            = match respond E (trace w2) (SettingsUpdated changes) with
              | None => add_event (EvRespond (SettingsUpdated changes)) w2
              | Some _ => add_event (EvRespond SettingsError)
                            (add_event (EvRespond (SettingsUpdated changes)) w2)
              end).
  { intros changes Hne.
    destruct changes as [|c cs]; [now destruct Hne|].
    cbn [settings_finish]. unfold mbind at 1. rewrite Hsave.
    unfold reply, call_raising.
    now destruct (respond E (trace w2) (SettingsUpdated (c :: cs))). }
  unfold settings, try_catch. unfold mbind at 1. cbn [get]. rewrite Hold.
  destruct temperature_unit as [c|], report_hour as [h|].
  - assert (Hok : negb ((0 <=? h) && (h <=? 23)) = false).
    { apply negb_false_iff, andb_true_iff. specialize (Hrange h eq_refl).
      split; apply Z.leb_le; lia. }
    unfold mbind at 1. unfold mbind at 1. cbn [setitem modify ret]. rewrite Hok.
    unfold mbind at 1. cbn [setitem modify].
    match goal with |- context [settings_finish E user_id ?cs ?w0] =>
      replace w0 with w1; [exact (Hfinish cs ltac:(discriminate))|] end.
    subst w1. unfold updated_record.
    symmetry. exact (setitem_world_twice w user_id old _ _ _ _ Hold).
  - unfold mbind at 1. unfold mbind at 1. cbn [setitem modify ret].
    match goal with |- context [settings_finish E user_id ?cs ?w0] =>
      replace w0 with w1; [exact (Hfinish cs ltac:(discriminate))|] end.
    subst w1. unfold updated_record.
    symmetry. exact (setitem_world w user_id old _ _ Hold).
  - assert (Hok : negb ((0 <=? h) && (h <=? 23)) = false).
    { apply negb_false_iff, andb_true_iff. specialize (Hrange h eq_refl).
      split; apply Z.leb_le; lia. }
    unfold mbind at 1. cbn [ret]. rewrite Hok.
    unfold mbind at 1. cbn [setitem modify].
    match goal with |- context [settings_finish E user_id ?cs ?w0] =>
      replace w0 with w1; [exact (Hfinish cs ltac:(discriminate))|] end.
    subst w1. unfold updated_record.
    symmetry. exact (setitem_world w user_id old _ _ Hold).
  - now destruct Hchanges.
Qed.

Lemma updated_record_other_keys (old : record) (temperature_unit : option unit_choice)
    (report_hour : option Z) (k : string) :
  k <> "temp_unit"%string -> k <> "report_hour"%string ->
  updated_record old temperature_unit report_hour !! k = old !! k.
Proof.
  intros Hu Hh. unfold updated_record.
  destruct temperature_unit, report_hour;
    now rewrite ?lookup_insert_ne by congruence.
Qed.


(** Calling [settings] without values shows the settings and changes
    nothing: no record, cache or file changes and no write is attempted.
    The answer carries the record's unit and hour, ["celsius"] and 8 for
    a record that lacks them; if the stored unit is not a string or the
    stored hour not an integer, the only answer is the error message. *)
Theorem settings_view_changes_nothing (w : world) (user_id : Z) (old : record) :
  user_settings w !! user_id = Some old ->
  let w' := snd (settings E user_id None None w) in
  match get_default old "temp_unit" (VStr "celsius"),
        get_default old "report_hour" (VInt 8) with
  | VStr temp_unit, VInt rep_hour =>
      answered_with (CurrentSettings temp_unit rep_hour) SettingsError w w'
  | _, _ =>
      user_settings w' = user_settings w /\ weather_cache w' = weather_cache w /\
      nasa_cache w' = nasa_cache w /\ db_file w' = db_file w /\
      trace w' = trace w ++ [EvRespond SettingsError]
  end.
Proof.
  intros Hold w'.
  assert (Hrun : w' = snd (try_catch
                   (temp_unit <- lift (as_str (get_default old "temp_unit" (VStr "celsius"))) ;;
                    rep_hour <- lift (format_d (get_default old "report_hour" (VInt 8))) ;;
                    reply E (CurrentSettings temp_unit rep_hour))
                   (fun _ => reply E SettingsError) w)).
  { subst w'. unfold settings, try_catch. unfold mbind at 1. cbn [get]. rewrite Hold.
    unfold mbind at 1. cbn [ret settings_finish].
    unfold mbind at 1. cbn [get]. now rewrite Hold. }
  clearbody w'. subst w'.
  destruct (get_default old "temp_unit" (VStr "celsius")) as [u|n|f];
    try (unfold try_catch, mbind, lift, as_str, reply, call_raising; cbn;
         now destruct (respond E (trace w) SettingsError)).
  destruct (get_default old "report_hour" (VInt 8)) as [s|rep_hour|f];
    try (unfold try_catch, mbind, lift, as_str, format_d, reply, call_raising; cbn;
         now destruct (respond E (trace w) SettingsError)).
  exact (reply_answered E (CurrentSettings u rep_hour) SettingsError w).
Qed.

(** The sweep follows the settings.  After a valid change, the user's
    stored record passes the sweep's test exactly at the clock readings
    of its zone whose hour is the new report hour and whose minute is
    below 5; a change of the unit alone leaves the test as it was. *)
Theorem schedule_follows_settings (w : world) (user_id : Z) (old : record)
    (temperature_unit : option unit_choice) (report_hour : option Z) :
  user_settings w !! user_id = Some old ->
  changes_of temperature_unit report_hour <> [] ->
  (forall h, report_hour = Some h -> 0 <= h <= 23) ->
  exists new,
    user_settings (snd (settings E user_id temperature_unit report_hour w)) !! user_id
      = Some new /\
    (report_hour = None -> forall clk, report_due clk new = report_due clk old) /\
    (forall h tz clk r,
       report_hour = Some h -> old !! "tz"%string = Some (VStr tz) ->
       zone_now clk tz = Ret r ->
       report_due clk new = Ret ((hour_of r =? h) && (minute_of r <? 5))).
Proof.
  intros Hold Hchanges Hrange.
  exists (updated_record old temperature_unit report_hour).
  pose proof (settings_update_run w user_id old temperature_unit report_hour
                Hold Hchanges Hrange) as Hrun.
  cbv zeta in Hrun.
  split; [|split].
  - rewrite Hrun.
    destruct (respond E _ _), (write_ok E (trace w)); cbn; apply lookup_insert_eq.
  - intros -> clk. unfold report_due, getitem, get_default.
    rewrite (updated_record_other_keys old temperature_unit None "tz") by discriminate.
    destruct (old !! "tz"%string) as [tz|]; [|reflexivity]. cbn.
    destruct (local_now clk tz) as [r|e]; [|reflexivity]. cbn.
    unfold updated_record. destruct temperature_unit; [|reflexivity].
    now rewrite lookup_insert_ne by discriminate.
  - intros h tz clk r -> Htz Hr.
    apply (report_due_reading clk _ tz r h); [| |exact Hr].
    + now rewrite updated_record_other_keys by discriminate.
    + unfold get_default, updated_record. now rewrite lookup_insert_eq.
Qed.

End SettingsProperties.

Section SettingsRuns.
Import Py Store Bot Reference.
Local Open Scope bot_scope.


Lemma settings_view_changes_nothing_witness :
  answered_with (CurrentSettings "celsius" 8) SettingsError
    (set_user_settings {[ 1 := (∅ : record) ]} empty_world)
    (snd (settings sample_env 1 None None
            (set_user_settings {[ 1 := (∅ : record) ]} empty_world))).
Proof.
  exact (settings_view_changes_nothing sample_env
           (set_user_settings {[ 1 := (∅ : record) ]} empty_world) 1 ∅ eq_refl).
Defined.

Lemma schedule_follows_settings_witness :
  exists new,
    user_settings (snd (settings sample_env 1 None (Some 6) registered_world)) !! 1
      = Some new /\
    report_due (clock_at ((5 * 3600 + 120) * 1000000)) new = Ret true /\
    report_due (clock_at ((7 * 3600 + 120) * 1000000)) new = Ret false.
Proof.
  assert (Hold : user_settings registered_world !! 1 = Some paris_record)
    by (vm_compute; reflexivity).
  assert (Hchanges : changes_of None (Some 6) <> []) by discriminate.
  assert (Hrange : forall h, Some 6 = Some h -> 0 <= h <= 23)
    by (intros h [= <-]; lia).
  destruct (schedule_follows_settings sample_env registered_world 1 paris_record
              None (Some 6) Hold Hchanges Hrange) as (new & Hnew & _ & Hdue).
  exists new. split; [exact Hnew|].
  assert (Htz : paris_record !! "tz"%string = Some (VStr "Europe/Paris"))
    by (vm_compute; reflexivity).
  split.
  - rewrite (Hdue 6 "Europe/Paris"%string (clock_at ((5 * 3600 + 120) * 1000000))
               (6 * 3600 + 120) eq_refl Htz); [reflexivity|].
    vm_compute. reflexivity.
  - rewrite (Hdue 6 "Europe/Paris"%string (clock_at ((7 * 3600 + 120) * 1000000))
               (8 * 3600 + 120) eq_refl Htz); [reflexivity|].
    vm_compute. reflexivity.
Defined.

End SettingsRuns.
(* ===================================================================== *)
(** * Further properties: what the commands show *)
(* ===================================================================== *)

Section Shown.
Import Py Meteo Store Bot Reference.
Local Open Scope bot_scope.
Context `{Libm}.

Lemma length_substring_le (n m : nat) (s : string) :
  (String.length (String.substring n m s) <= m)%nat.
Proof.
  revert n m. induction s as [|c s IH]; intros [|n] [|m]; cbn; try lia.
  - specialize (IH 0%nat m). lia.
  - apply IH.
  - apply IH.
Qed.

Lemma string_length_append (s1 s2 : string) :
  String.length (String.append s1 s2) = (String.length s1 + String.length s2)%nat.
Proof.
  induction s1 as [|c s1 IH]; [reflexivity|].
  change (String.append (String c s1) s2) with (String c (String.append s1 s2)).
  cbn. now rewrite IH.
Qed.

Lemma substring_append_prefix (m : nat) (s t : string) :
  (m <= String.length s)%nat ->
  String.substring 0 m (String.append (String.substring 0 m s) t) = String.substring 0 m s.
Proof.
  revert m. induction s as [|c s IH]; intros [|m] Hm; cbn in *; try lia.
  - now destruct t.
  - now destruct t.
  - change (String.append (String c (String.substring 0 m s)) t)
      with (String c (String.append (String.substring 0 m s) t)).
    cbn. rewrite IH by lia. reflexivity.
Qed.

Lemma desc_short_bounds (explanation : string) :
  (String.length (desc_short explanation) <= 503)%nat /\
  ((String.length explanation <= 500)%nat -> desc_short explanation = explanation) /\
  String.substring 0 500 (desc_short explanation) = String.substring 0 500 explanation.
Proof.
  unfold desc_short.
  destruct (Nat.ltb_spec 500 (String.length explanation)) as [Hlong|Hshort].
  - split; [|split].
    + rewrite string_length_append.
      pose proof (length_substring_le 0 500 explanation).
      change (String.length "...") with 3%nat. lia.
    + lia.
    + apply substring_append_prefix. lia.
  - split; [lia|]. split; reflexivity.
Qed.


Lemma result_bind_ret {A B : Type} (a : A) (k : A -> result B) :
  Py.bind (Ret a) k = k a.
Proof. reflexivity. Qed.

Ltac step_result Ha :=
  match type of Ha with
  | Py.bind ?e _ = Ret _ =>
      let x := fresh "x" in let E := fresh "E" in
      destruct e as [x|x] eqn:E; cbn [Py.bind] in Ha; [|discriminate Ha]
  end.

Ltac run_result :=
  repeat match goal with
         | HE : ?e = Ret ?v |- Py.bind ?e ?k = _ =>
             rewrite HE; rewrite (result_bind_ret v); cbv beta
         end.

(** The daily report and the [atmosphere] command agree.  For a record
    with a country and an integer report hour, the report can be built
    from weather data exactly when the analysis can, and the two then show
    the same local time, temperatures in the user's unit, heat index,
    dew point, air density, cloud class, oktas, cloud base, wind
    direction and coordinates. *)
Theorem report_agrees_with_analysis (clk : clock) (settings : record)
    (city : string) (country : pyval) (data : weather) (h : Z) :
  settings !! "country"%string = Some country ->
  get_default settings "report_hour" (VInt 8) = VInt h ->
  (forall a, build_analysis clk settings city data = Ret a ->
             exists r, build_report clk settings city country data = Ret r /\
                       same_readings r a) /\
  (forall r, build_report clk settings city country data = Ret r ->
             exists a, build_analysis clk settings city data = Ret a /\
                       same_readings r a).
Proof.
  intros Hcountry Hhour.
  assert (Ec : getitem settings "country" = Ret country)
    by (unfold getitem; now rewrite Hcountry).
  assert (Eh : format_d (get_default settings "report_hour" (VInt 8)) = Ret h)
    by now rewrite Hhour.
  split.
  - intros a Ha. unfold build_analysis in Ha.
    repeat step_result Ha.
    eexists. split.
    + unfold build_report. run_result. reflexivity.
    + injection Ha as <-. unfold same_readings. cbn. repeat split.
  - intros r Hr. unfold build_report in Hr.
    repeat step_result Hr.
    eexists. split.
    + unfold build_analysis. run_result. reflexivity.
    + injection Hr as <-. unfold same_readings. cbn. repeat split.
Qed.

End Shown.

Section Restart.
Import Py Store Bot Reference.
Local Open Scope bot_scope.

Lemma station_record_fields (result : weather) (tz_str : string) :
  station_record result tz_str !! "city"%string = Some (VStr (city_name result)) /\
  station_record result tz_str !! "country"%string = Some (VStr (country result)) /\
  station_record result tz_str !! "lat"%string = Some (VFloat (lat result)) /\
  station_record result tz_str !! "lon"%string = Some (VFloat (lon result)) /\
  station_record result tz_str !! "tz"%string = Some (VStr tz_str).
Proof. repeat split; reflexivity. Qed.

(** What [station] shows for a record with all its fields. *)
Lemma station_shows_record (E : env) (clk : clock) (w : world) (user_id : Z)
    (settings : record) (city country tz : pyval) (lat_f lon_f : float)
    (temp_unit : string) (rep_hour : Z) :
  user_settings w !! user_id = Some settings ->
  settings !! "tz"%string = Some tz ->
  get_default settings "temp_unit" (VStr "celsius") = VStr temp_unit ->
  get_default settings "report_hour" (VInt 8) = VInt rep_hour ->
  settings !! "city"%string = Some city ->
  settings !! "country"%string = Some country ->
  settings !! "lat"%string = Some (VFloat lat_f) ->
  settings !! "lon"%string = Some (VFloat lon_f) ->
  answered_with
    (StationStatus city country lat_f lon_f tz (get_local_time clk tz) temp_unit rep_hour)
    StationError w (snd (station E clk user_id w)).
Proof.
  intros Hs Htz Hunit Hhour Hcity Hcountry Hlat Hlon.
  pose proof (reply_answered E
                (StationStatus city country lat_f lon_f tz (get_local_time clk tz)
                   temp_unit rep_hour) StationError w) as Ha.
  unfold try_catch in Ha.
  unfold station, try_catch. unfold mbind at 1. cbn [get]. rewrite Hs.
  unfold getitem. rewrite Htz, Hunit, Hhour, Hcity, Hcountry, Hlat, Hlon.
  exact Ha.
Qed.

(** After a registration that succeeded, [station] shows what was
    registered: the place and coordinates the weather service returned,
    the zone found for them, and the defaults, unit ["celsius"] and
    report hour 8; showing it changes nothing. *)
Theorem station_after_registration (E : env) (clk clk' : clock) (w w1 : world)
    (user_id : Z) (city : string) (result : weather) :
  (String.length (strip city) =? 0)%nat || (100 <? String.length (strip city))%nat = false ->
  get_weather E clk (strip city) (add_event EvDefer w) = (Ret (Some result), w1) ->
  let w' := snd (setlocation E clk user_id city w) in
  let tz := get_timezone_from_coords E (lat result) (lon result) in
  answered_with
    (StationStatus (VStr (city_name result)) (VStr (country result))
       (lat result) (lon result) (VStr tz) (get_local_time clk' (VStr tz))
       "celsius" 8)
    StationError w' (snd (station E clk' user_id w')).
Proof.
  intros Hlen Hgw w' tz.
  assert (Hs : user_settings w' !! user_id = Some (station_record result tz)).
  { subst w'. rewrite (setlocation_success_run E clk w w1 user_id city result Hlen Hgw).
    rewrite add_respond_settings.
    destruct (write_ok E (trace w1)); cbn; apply lookup_insert_eq. }
  destruct (station_record_fields result tz) as (Hcity & Hcountry & Hlat & Hlon & Htz).
  now apply (station_shows_record E clk' w' user_id (station_record result tz)).
Qed.



Lemma report_agrees_with_analysis_witness :
  exists a r,
    build_analysis (H := series_libm) (clock_at 0) paris_record "Paris" sample_weather
      = Ret a /\
    build_report (H := series_libm) (clock_at 0) paris_record "Paris" (VStr "FR")
      sample_weather = Ret r /\
    r_hi r = a_hi a /\ r_cloud_base r = a_cloud_base a.
Proof.
  destruct (build_analysis (H := series_libm) (clock_at 0) paris_record "Paris"
              sample_weather) as [a|e] eqn:Ha;
    [|vm_compute in Ha; discriminate Ha].
  destruct (report_agrees_with_analysis (H := series_libm) (clock_at 0) paris_record
              "Paris" (VStr "FR") sample_weather 8 eq_refl eq_refl) as (Hto & _).
  destruct (Hto a Ha) as (r & Hr & Hsame).
  exists a, r. split; [reflexivity|]. split; [exact Hr|].
  unfold same_readings in Hsame. tauto.
Defined.

Lemma station_after_registration_witness :
  let w' := snd (setlocation sample_env (clock_at 0) 1 "Paris"
                   (add_event EvHttpNasa empty_world)) in
  trace (snd (station sample_env (clock_at 0) 1 w')) =
    trace w' ++ [EvRespond (StationStatus (VStr "Paris") (VStr "FR")
                              48.8534%float 2.3488%float (VStr "Europe/Paris")
                              (Some 3600) "celsius" 8)].
Proof.
  intros w'.
  set (w := add_event EvHttpNasa empty_world).
  assert (Hlen : (String.length (strip "Paris") =? 0)%nat
                 || (100 <? String.length (strip "Paris"))%nat = false)
    by (vm_compute; reflexivity).
  assert (Hgw : get_weather sample_env (clock_at 0) (strip "Paris") (add_event EvDefer w)
                = (Ret (Some sample_weather),
                   set_weather_cache {[ "paris"%string := (sample_weather, 0) ]}
                     (add_event (EvHttpWeather "Paris") (add_event EvDefer w))))
    by (vm_compute; reflexivity).
  destruct (station_after_registration sample_env (clock_at 0) (clock_at 0) w _ 1
              "Paris" sample_weather Hlen Hgw) as (_ & _ & _ & _ & Ht).
  fold w' in Ht.
  destruct Ht as [Ht|Ht]; [exact Ht|].
  exfalso.
  assert (Hl : length (trace (snd (station sample_env (clock_at 0) 1 w')))
               = S (length (trace w'))) by (vm_compute; reflexivity).
  pose proof (eq_trans (eq_sym Hl) (f_equal length Ht)) as Hlen2.
  vm_compute in Hlen2. discriminate Hlen2.
Defined.



End Restart.
